(** * Elkano NI 43-101 platform: the extraction post-processing pipeline

    A shallow embedding of the deterministic part of the application:
    - [lib/types.ts]: [computeStatus], [computeIndInfRatio],
      [computeResourceConfidence], [transformClaudeResponseToExtraction];
    - [lib/claude.ts]: [extractFromPdf], [extractFromPdfText],
      [parseClaudeResponse], [validateExtractionResponse];
    - [app/api/extract/route.ts]: the [POST] handler;
    - [lib/supabase.ts] with [supabase/schema.sql]: the persistence helpers
      under the row-level-security policies of the [extractions] table.

    Conventions of the embedding.
    - A JavaScript [number] is an exact rational ([Qc]); [NaN], the
      infinities and the rounding of binary floating point are outside the
      model.
    - A JavaScript string is a [string]; one character stands for one code
      unit, so [String.length] is the [length] property.
    - [null] and [undefined] in a field of type [T | null] are both [None].
    - A thrown exception is a value of type [exn]; an [async] function is
      its sequential reading, a computation in the monad [M] below. *)

From Stdlib Require Import Ascii String QArith Qcanon.
From stdpp Require Import base numbers option list strings gmap sorting.

Set Warnings "-register-all".
Set Default Proof Using "Type".

Open Scope string_scope.
Open Scope Qc_scope.

(** ** Numbers *)

Definition number : Type := Qc.

(** [x > y] and [x >= y] on numbers. *)
Definition gt (x y : number) : bool := bool_decide (y < x).
Definition ge (x y : number) : bool := bool_decide (y <= x).

(** Truthiness of a [number | null]: [null] and [0] are falsy. *)
Definition truthy_number (x : option number) : bool :=
  match x with
  | None => false
  | Some q => negb (bool_decide (q = 0))
  end.

(** Truthiness of a [boolean | null]. *)
Definition truthy_bool (x : option bool) : bool :=
  match x with
  | Some true => true
  | _ => false
  end.

(** [Number(x.toFixed(2))].  [toFixed] takes the sign apart and picks the
    integer [n] for which [n / 100] is nearest to [|x|], the larger one of
    two; [Number] reads the decimal string back.  (From 1e21 on [toFixed]
    prints the number itself, which for a double is an integer already.)
    The argument is the exact number here.  The program's argument is a
    double, so that a quotient which lies on or beside the middle between
    two hundredths, as 401/200 does, can be rounded the other way there;
    nothing below is stated at such a quotient. *)
Definition toFixed2_n (x : number) : Z :=
  let q := this x in
  let a := Z.abs (Qnum q) in
  let d := Zpos (Qden q) in
  (2 * 100 * a + d) / (2 * d).

Definition toFixed2 (x : number) : number :=
  Q2Qc ((Z.sgn (Qnum (this x)) * toFixed2_n x) # 100).

(** ** The enumerations of [lib/types.ts] *)

Inductive RiskLevel := low | moderate | high.
Inductive Priority := P_high | P_medium | P_low | P_pass.
Inductive ResourceConfidence := RC_high | RC_moderate | RC_low.
Inductive Status := INVESTIGATE | WATCH | PASS.

#[global] Instance RiskLevel_eq_dec : EqDecision RiskLevel.
Proof. solve_decision. Defined.
#[global] Instance Priority_eq_dec : EqDecision Priority.
Proof. solve_decision. Defined.
#[global] Instance ResourceConfidence_eq_dec : EqDecision ResourceConfidence.
Proof. solve_decision. Defined.
#[global] Instance Status_eq_dec : EqDecision Status.
Proof. solve_decision. Defined.

(** ** [ExtractionInsert]: a row of [extractions] without [id] and
    [created_at].  [report_stage] is a [string]: the transformer stores the
    payload's string under an unchecked cast to [ReportStage]. *)

Record ExtractionInsert := {
  user_id : string;
  pdf_filename : option string;
  pdf_url : option string;
  (* Metadata *)
  issuer_name : option string;
  project_name : option string;
  effective_date : option string;
  report_stage : option string;
  (* Project Basics *)
  primary_commodity : option string;
  secondary_commodities : option (list string);
  country : option string;
  province_state : option string;
  (* Resource Estimate *)
  total_indicated_mt : option number;
  indicated_avg_grade : option string;
  total_inferred_mt : option number;
  inferred_avg_grade : option string;
  total_measured_mt : option number;
  measured_avg_grade : option string;
  cutoff_grade : option string;
  resource_date : option string;
  (* Economics *)
  has_economic_study : option bool;
  npv_aftertax_musd : option number;
  npv_discount_rate : option number;
  irr_aftertax_percent : option number;
  capex_musd : option number;
  opex_per_unit : option string;
  payback_years : option number;
  mine_life_years : option number;
  commodity_price_assumption : option string;
  (* Risk Assessment *)
  metallurgy_risk : option RiskLevel;
  metallurgy_notes : option string;
  permitting_risk : option RiskLevel;
  permitting_notes : option string;
  infrastructure_risk : option RiskLevel;
  geopolitical_risk : option RiskLevel;
  (* Investment Analysis *)
  investigation_priority : option Priority;
  priority_rationale : option string;
  next_catalyst : option string;
  catalyst_timeline : option string;
  red_flags : option (list string);
  positive_signals : option (list string);
  magellan_score : option number;
  (* Derived Metrics *)
  ind_inf_ratio : option number;
  resource_confidence : option ResourceConfidence;
  (* Notes (user annotations) *)
  notes : option string;
  (* Auto-computed status *)
  status : option Status
}.

(** ** Utility functions of [lib/types.ts] *)

Definition computeStatus (extraction : ExtractionInsert) : Status :=
  let investigation_priority := investigation_priority extraction in
  let ind_inf_ratio := ind_inf_ratio extraction in
  let metallurgy_risk := metallurgy_risk extraction in
  let report_stage := report_stage extraction in
  let has_economic_study := has_economic_study extraction in
  let permitting_risk := permitting_risk extraction in
  (* High priority signals - INVESTIGATE *)
  if bool_decide (investigation_priority = Some P_high)
     || (truthy_number ind_inf_ratio
         && from_option (fun r => gt r 2) false ind_inf_ratio
         && negb (bool_decide (metallurgy_risk = Some high)))
     || ((bool_decide (report_stage = Some "PEA")
          || bool_decide (report_stage = Some "Preliminary Assessment"))
         && negb (truthy_bool has_economic_study))
  then INVESTIGATE
  (* Red flags - PASS *)
  else if bool_decide (investigation_priority = Some P_pass)
          || bool_decide (metallurgy_risk = Some high)
          || bool_decide (permitting_risk = Some high)
  then PASS
  (* Default - WATCH *)
  else WATCH.

Definition computeIndInfRatio (indicated inferred : option number)
  : option number :=
  if negb (truthy_number indicated) || negb (truthy_number inferred)
     || bool_decide (inferred = Some 0)
  then None
  else
    match indicated, inferred with
    | Some i, Some f => Some (toFixed2 (i / f))
    | _, _ => None
    end.

Definition computeResourceConfidence (ratio : option number)
  : option ResourceConfidence :=
  match ratio with
  | None => None
  | Some ratio =>
      if gt ratio 2 then Some RC_high
      else if ge ratio (Q2Qc (1 # 2)) then Some RC_moderate
      else Some RC_low
  end.


(** ** [ClaudeExtractionResponse]: the payload, grouped by topic *)

Module Payload.

Record Metadata := {
  issuer_name : option string;
  project_name : option string;
  effective_date : option string;
  report_stage : option string
}.

Record ProjectBasics := {
  primary_commodity : option string;
  secondary_commodities : option (list string);
  country : option string;
  province_state : option string
}.

Record ResourceEstimate := {
  total_indicated_mt : option number;
  indicated_avg_grade : option string;
  total_inferred_mt : option number;
  inferred_avg_grade : option string;
  total_measured_mt : option number;
  measured_avg_grade : option string;
  cutoff_grade : option string;
  resource_date : option string
}.

Record Economics := {
  has_economic_study : option bool;
  npv_aftertax_musd : option number;
  npv_discount_rate : option number;
  irr_aftertax_percent : option number;
  capex_musd : option number;
  opex_per_unit : option string;
  payback_years : option number;
  mine_life_years : option number;
  commodity_price_assumption : option string
}.

Record RiskAssessment := {
  metallurgy_risk : option RiskLevel;
  metallurgy_notes : option string;
  permitting_risk : option RiskLevel;
  permitting_notes : option string;
  infrastructure_risk : option RiskLevel;
  geopolitical_risk : option RiskLevel
}.

Record InvestmentAnalysis := {
  investigation_priority : option Priority;
  priority_rationale : option string;
  next_catalyst : option string;
  catalyst_timeline : option string;
  red_flags : option (list string);
  positive_signals : option (list string);
  magellan_score : option number
}.

Record DerivedMetrics := {
  indicated_inferred_ratio : option number;
  resource_confidence : option ResourceConfidence
}.

Record ClaudeExtractionResponse := {
  metadata : Metadata;
  project_basics : ProjectBasics;
  resource_estimate : ResourceEstimate;
  economics : Economics;
  risk_assessment : RiskAssessment;
  investment_analysis : InvestmentAnalysis;
  derived_metrics : DerivedMetrics
}.

End Payload.

Abbreviation ClaudeExtractionResponse := Payload.ClaudeExtractionResponse.

(** [extraction.status = v] on the record under construction. *)
Definition set_status (v : option Status) (e : ExtractionInsert)
  : ExtractionInsert :=
  {| user_id := user_id e;
     pdf_filename := pdf_filename e;
     pdf_url := pdf_url e;
     issuer_name := issuer_name e;
     project_name := project_name e;
     effective_date := effective_date e;
     report_stage := report_stage e;
     primary_commodity := primary_commodity e;
     secondary_commodities := secondary_commodities e;
     country := country e;
     province_state := province_state e;
     total_indicated_mt := total_indicated_mt e;
     indicated_avg_grade := indicated_avg_grade e;
     total_inferred_mt := total_inferred_mt e;
     inferred_avg_grade := inferred_avg_grade e;
     total_measured_mt := total_measured_mt e;
     measured_avg_grade := measured_avg_grade e;
     cutoff_grade := cutoff_grade e;
     resource_date := resource_date e;
     has_economic_study := has_economic_study e;
     npv_aftertax_musd := npv_aftertax_musd e;
     npv_discount_rate := npv_discount_rate e;
     irr_aftertax_percent := irr_aftertax_percent e;
     capex_musd := capex_musd e;
     opex_per_unit := opex_per_unit e;
     payback_years := payback_years e;
     mine_life_years := mine_life_years e;
     commodity_price_assumption := commodity_price_assumption e;
     metallurgy_risk := metallurgy_risk e;
     metallurgy_notes := metallurgy_notes e;
     permitting_risk := permitting_risk e;
     permitting_notes := permitting_notes e;
     infrastructure_risk := infrastructure_risk e;
     geopolitical_risk := geopolitical_risk e;
     investigation_priority := investigation_priority e;
     priority_rationale := priority_rationale e;
     next_catalyst := next_catalyst e;
     catalyst_timeline := catalyst_timeline e;
     red_flags := red_flags e;
     positive_signals := positive_signals e;
     magellan_score := magellan_score e;
     ind_inf_ratio := ind_inf_ratio e;
     resource_confidence := resource_confidence e;
     notes := notes e;
     status := v |}.

(** Transform Claude response to database insert. *)
Definition transformClaudeResponseToExtraction
    (response : ClaudeExtractionResponse)
    (userId pdfFilename pdfUrl : string) : ExtractionInsert :=
  let md := Payload.metadata response in
  let pb := Payload.project_basics response in
  let re := Payload.resource_estimate response in
  let ec := Payload.economics response in
  let ra := Payload.risk_assessment response in
  let ia := Payload.investment_analysis response in
  let indInfRatio :=
    computeIndInfRatio (Payload.total_indicated_mt re)
                       (Payload.total_inferred_mt re) in
  let resourceConfidence := computeResourceConfidence indInfRatio in
  let extraction :=
    {| user_id := userId;
       pdf_filename := Some pdfFilename;
       pdf_url := Some pdfUrl;
       (* Metadata *)
       issuer_name := Payload.issuer_name md;
       project_name := Payload.project_name md;
       effective_date := Payload.effective_date md;
       report_stage := Payload.report_stage md;
       (* Project Basics *)
       primary_commodity := Payload.primary_commodity pb;
       secondary_commodities := Payload.secondary_commodities pb;
       country := Payload.country pb;
       province_state := Payload.province_state pb;
       (* Resource Estimate *)
       total_indicated_mt := Payload.total_indicated_mt re;
       indicated_avg_grade := Payload.indicated_avg_grade re;
       total_inferred_mt := Payload.total_inferred_mt re;
       inferred_avg_grade := Payload.inferred_avg_grade re;
       total_measured_mt := Payload.total_measured_mt re;
       measured_avg_grade := Payload.measured_avg_grade re;
       cutoff_grade := Payload.cutoff_grade re;
       resource_date := Payload.resource_date re;
       (* Economics *)
       has_economic_study := Payload.has_economic_study ec;
       npv_aftertax_musd := Payload.npv_aftertax_musd ec;
       npv_discount_rate := Payload.npv_discount_rate ec;
       irr_aftertax_percent := Payload.irr_aftertax_percent ec;
       capex_musd := Payload.capex_musd ec;
       opex_per_unit := Payload.opex_per_unit ec;
       payback_years := Payload.payback_years ec;
       mine_life_years := Payload.mine_life_years ec;
       commodity_price_assumption := Payload.commodity_price_assumption ec;
       (* Risk Assessment *)
       metallurgy_risk := Payload.metallurgy_risk ra;
       metallurgy_notes := Payload.metallurgy_notes ra;
       permitting_risk := Payload.permitting_risk ra;
       permitting_notes := Payload.permitting_notes ra;
       infrastructure_risk := Payload.infrastructure_risk ra;
       geopolitical_risk := Payload.geopolitical_risk ra;
       (* Investment Analysis *)
       investigation_priority := Payload.investigation_priority ia;
       priority_rationale := Payload.priority_rationale ia;
       next_catalyst := Payload.next_catalyst ia;
       catalyst_timeline := Payload.catalyst_timeline ia;
       red_flags := Payload.red_flags ia;
       positive_signals := Payload.positive_signals ia;
       magellan_score := Payload.magellan_score ia;
       (* Derived Metrics *)
       ind_inf_ratio := indInfRatio;
       resource_confidence := resourceConfidence;
       (* Notes (empty initially) *)
       notes := None;
       (* Status will be computed *)
       status := None |} in
  (* Compute status *)
  set_status (Some (computeStatus extraction)) extraction.

(** ** JavaScript values: what [JSON.parse] returns, typed [unknown] *)

Inductive value :=
| VUndefined
| VNull
| VBool (b : bool)
| VNum (q : number)
| VStr (s : string)
| VArr (l : list value)
| VObj (m : gmap string value).

(** [!!data]. *)
Definition truthy (data : value) : bool :=
  match data with
  | VUndefined | VNull => false
  | VBool b => b
  | VNum q => negb (bool_decide (q = 0))
  | VStr s => negb (bool_decide (s = ""))
  | VArr _ | VObj _ => true
  end.

Definition typeof (data : value) : string :=
  match data with
  | VUndefined => "undefined"
  | VBool _ => "boolean"
  | VNum _ => "number"
  | VStr _ => "string"
  | VNull | VArr _ | VObj _ => "object"
  end.

(** [key in obj], for [obj] an object or an array.  An array has its
    indices and [length].  The names inherited from [Object.prototype] and
    [Array.prototype] are left out; this program tests for none of them. *)
Fixpoint digits_value (acc : N) (s : string) : option N :=
  match s with
  | "" => Some acc
  | String c s' =>
      match Ascii.is_nat c with
      | Some d => digits_value (10 * acc + N.of_nat d) s'
      | None => None
      end
  end.

(** The index a property name stands for: a decimal numeral without
    leading zero. *)
Definition array_index (key : string) : option N :=
  match key with
  | "" => None
  | String "0" "" => Some 0%N
  | String "0" _ => None
  | _ => digits_value 0 key
  end.

Definition key_in (key : string) (obj : value) : bool :=
  match obj with
  | VObj m => bool_decide (is_Some (m !! key))
  | VArr l =>
      bool_decide (key = "length")
      || from_option (fun i => bool_decide (i < N.of_nat (length l))%N) false
                     (array_index key)
  | _ => false
  end.

(** [obj.key]; reading a property of a non-object is outside the typed
    program, [VUndefined] stands for it. *)
Definition prop (obj : value) (key : string) : value :=
  match obj with
  | VObj m => default VUndefined (m !! key)
  | _ => VUndefined
  end.

(** ** [lib/claude.ts]: validation of the response structure *)

Definition requiredKeys : list string :=
  [ "metadata";
    "project_basics";
    "resource_estimate";
    "economics";
    "risk_assessment";
    "investment_analysis";
    "derived_metrics" ].

(** The loop [for (const key of requiredKeys) if (!(key in obj)) return false]. *)
Fixpoint all_keys_in (keys : list string) (obj : value) : bool :=
  match keys with
  | [] => true
  | key :: keys' => if negb (key_in key obj) then false else all_keys_in keys' obj
  end.

Definition validateExtractionResponse (data : value) : bool :=
  if negb (truthy data) || negb (bool_decide (typeof data = "object"))
  then false
  else all_keys_in requiredKeys data.

(** ** The type guard [data is ClaudeExtractionResponse]

    After validation the handler uses the value at the interface type
    without any conversion.  [asClaudeExtractionResponse] reads a value at
    that type; it is [None] for a value that does not inhabit the
    interface (a section that is no object, a field of another type), on
    which the program's behaviour is outside this development. *)

Definition as_string (v : value) : option (option string) :=
  match v with
  | VUndefined | VNull => Some None
  | VStr s => Some (Some s)
  | _ => None
  end.

Definition as_number (v : value) : option (option number) :=
  match v with
  | VUndefined | VNull => Some None
  | VNum q => Some (Some q)
  | _ => None
  end.

Definition as_boolean (v : value) : option (option bool) :=
  match v with
  | VUndefined | VNull => Some None
  | VBool b => Some (Some b)
  | _ => None
  end.

Definition as_strings (v : value) : option (option (list string)) :=
  match v with
  | VUndefined | VNull => Some None
  | VArr l =>
      Some <$> mapM (fun x => match x with VStr s => Some s | _ => None end) l
  | _ => None
  end.

Definition as_RiskLevel (v : value) : option (option RiskLevel) :=
  match v with
  | VUndefined | VNull => Some None
  | VStr s =>
      if bool_decide (s = "low") then Some (Some low)
      else if bool_decide (s = "moderate") then Some (Some moderate)
      else if bool_decide (s = "high") then Some (Some high)
      else None
  | _ => None
  end.

Definition as_Priority (v : value) : option (option Priority) :=
  match v with
  | VUndefined | VNull => Some None
  | VStr s =>
      if bool_decide (s = "high") then Some (Some P_high)
      else if bool_decide (s = "medium") then Some (Some P_medium)
      else if bool_decide (s = "low") then Some (Some P_low)
      else if bool_decide (s = "pass") then Some (Some P_pass)
      else None
  | _ => None
  end.

Definition as_ResourceConfidence (v : value)
  : option (option ResourceConfidence) :=
  match v with
  | VUndefined | VNull => Some None
  | VStr s =>
      if bool_decide (s = "high") then Some (Some RC_high)
      else if bool_decide (s = "moderate") then Some (Some RC_moderate)
      else if bool_decide (s = "low") then Some (Some RC_low)
      else None
  | _ => None
  end.

Definition as_section (v : value) : option value :=
  match v with
  | VObj _ => Some v
  | _ => None
  end.

Definition asClaudeExtractionResponse (data : value)
  : option ClaudeExtractionResponse :=
  md ← as_section (prop data "metadata");
  pb ← as_section (prop data "project_basics");
  re ← as_section (prop data "resource_estimate");
  ec ← as_section (prop data "economics");
  ra ← as_section (prop data "risk_assessment");
  ia ← as_section (prop data "investment_analysis");
  dm ← as_section (prop data "derived_metrics");
  md1 ← as_string (prop md "issuer_name");
  md2 ← as_string (prop md "project_name");
  md3 ← as_string (prop md "effective_date");
  md4 ← as_string (prop md "report_stage");
  pb1 ← as_string (prop pb "primary_commodity");
  pb2 ← as_strings (prop pb "secondary_commodities");
  pb3 ← as_string (prop pb "country");
  pb4 ← as_string (prop pb "province_state");
  re1 ← as_number (prop re "total_indicated_mt");
  re2 ← as_string (prop re "indicated_avg_grade");
  re3 ← as_number (prop re "total_inferred_mt");
  re4 ← as_string (prop re "inferred_avg_grade");
  re5 ← as_number (prop re "total_measured_mt");
  re6 ← as_string (prop re "measured_avg_grade");
  re7 ← as_string (prop re "cutoff_grade");
  re8 ← as_string (prop re "resource_date");
  ec1 ← as_boolean (prop ec "has_economic_study");
  ec2 ← as_number (prop ec "npv_aftertax_musd");
  ec3 ← as_number (prop ec "npv_discount_rate");
  ec4 ← as_number (prop ec "irr_aftertax_percent");
  ec5 ← as_number (prop ec "capex_musd");
  ec6 ← as_string (prop ec "opex_per_unit");
  ec7 ← as_number (prop ec "payback_years");
  ec8 ← as_number (prop ec "mine_life_years");
  ec9 ← as_string (prop ec "commodity_price_assumption");
  ra1 ← as_RiskLevel (prop ra "metallurgy_risk");
  ra2 ← as_string (prop ra "metallurgy_notes");
  ra3 ← as_RiskLevel (prop ra "permitting_risk");
  ra4 ← as_string (prop ra "permitting_notes");
  ra5 ← as_RiskLevel (prop ra "infrastructure_risk");
  ra6 ← as_RiskLevel (prop ra "geopolitical_risk");
  ia1 ← as_Priority (prop ia "investigation_priority");
  ia2 ← as_string (prop ia "priority_rationale");
  ia3 ← as_string (prop ia "next_catalyst");
  ia4 ← as_string (prop ia "catalyst_timeline");
  ia5 ← as_strings (prop ia "red_flags");
  ia6 ← as_strings (prop ia "positive_signals");
  ia7 ← as_number (prop ia "magellan_score");
  dm1 ← as_number (prop dm "indicated_inferred_ratio");
  dm2 ← as_ResourceConfidence (prop dm "resource_confidence");
  Some
    {| Payload.metadata :=
         {| Payload.issuer_name := md1;
            Payload.project_name := md2;
            Payload.effective_date := md3;
            Payload.report_stage := md4 |};
       Payload.project_basics :=
         {| Payload.primary_commodity := pb1;
            Payload.secondary_commodities := pb2;
            Payload.country := pb3;
            Payload.province_state := pb4 |};
       Payload.resource_estimate :=
         {| Payload.total_indicated_mt := re1;
            Payload.indicated_avg_grade := re2;
            Payload.total_inferred_mt := re3;
            Payload.inferred_avg_grade := re4;
            Payload.total_measured_mt := re5;
            Payload.measured_avg_grade := re6;
            Payload.cutoff_grade := re7;
            Payload.resource_date := re8 |};
       Payload.economics :=
         {| Payload.has_economic_study := ec1;
            Payload.npv_aftertax_musd := ec2;
            Payload.npv_discount_rate := ec3;
            Payload.irr_aftertax_percent := ec4;
            Payload.capex_musd := ec5;
            Payload.opex_per_unit := ec6;
            Payload.payback_years := ec7;
            Payload.mine_life_years := ec8;
            Payload.commodity_price_assumption := ec9 |};
       Payload.risk_assessment :=
         {| Payload.metallurgy_risk := ra1;
            Payload.metallurgy_notes := ra2;
            Payload.permitting_risk := ra3;
            Payload.permitting_notes := ra4;
            Payload.infrastructure_risk := ra5;
            Payload.geopolitical_risk := ra6 |};
       Payload.investment_analysis :=
         {| Payload.investigation_priority := ia1;
            Payload.priority_rationale := ia2;
            Payload.next_catalyst := ia3;
            Payload.catalyst_timeline := ia4;
            Payload.red_flags := ia5;
            Payload.positive_signals := ia6;
            Payload.magellan_score := ia7 |};
       Payload.derived_metrics :=
         {| Payload.indicated_inferred_ratio := dm1;
            Payload.resource_confidence := dm2 |} |}.

(** ** String methods used by the program *)

Module Js.

Definition nl : string := String "010"%char "".

(** [s.length] as a number. *)
Definition length (s : string) : Z := Z.of_nat (String.length s).

Fixpoint take (n : nat) (s : string) : string :=
  match n, s with
  | S n', String c s' => String c (take n' s')
  | _, _ => ""
  end.

Fixpoint drop (n : nat) (s : string) : string :=
  match n, s with
  | S n', String _ s' => drop n' s'
  | _, _ => s
  end.

(** [s.slice(n)], [s.slice(0, n)] and [s.slice(0, -n)] for [n >= 0]. *)
Definition slice_from (n : Z) (s : string) : string := drop (Z.to_nat n) s.
Definition slice_to (n : Z) (s : string) : string := take (Z.to_nat n) s.
Definition slice_to_last (n : Z) (s : string) : string :=
  take (String.length s - Z.to_nat n) s.

Definition startsWith (s pat : string) : bool := String.prefix pat s.

Definition endsWith (s pat : string) : bool :=
  String.prefix (String.rev pat) (String.rev s).

Fixpoint includes (s pat : string) : bool :=
  String.prefix pat s
  || match s with
     | "" => false
     | String _ s' => includes s' pat
     end.

(** White space and line terminators, as far as they are single
    characters here: TAB, LF, VT, FF, CR, SP, NBSP. *)
Definition is_white_space (c : ascii) : bool :=
  match c with
  | "009" | "010" | "011" | "012" | "013" | " " | "160" => true
  | _ => false
  end%char.

Fixpoint trimStart (s : string) : string :=
  match s with
  | String c s' => if is_white_space c then trimStart s' else s
  | "" => ""
  end.

Definition trimEnd (s : string) : string :=
  String.rev (trimStart (String.rev s)).

Definition trim (s : string) : string := trimEnd (trimStart s).

(** [s.split('/').pop()]: what follows the last slash. *)
Fixpoint last_segment_go (acc s : string) : string :=
  match s with
  | "" => String.rev acc
  | String c s' =>
      if bool_decide (c = "/"%char) then last_segment_go "" s'
      else last_segment_go (String c acc) s'
  end.
Definition last_segment (s : string) : string := last_segment_go "" s.

(** [a || b] on strings: the empty string and [undefined] are falsy. *)
Definition or_else (a : option string) (b : option string) : option string :=
  match a with
  | Some (String _ _) => a
  | _ => b
  end.

End Js.

(** ** The world outside the program

    Thrown values.  [Error] is an instance of the class [Error];
    [PostgrestError] is the error object of a failed query, named by its
    code; [Thrown] is any other value, kept as its [String(...)] text. *)

Inductive exn :=
| Error (message : string)
| PostgrestError (code : string)
| Thrown (text : string).

(** [error instanceof Error ? error.message : String(error)]. *)
Definition message_or_string (error : exn) : string :=
  match error with
  | Error message => message
  | PostgrestError _ => "[object Object]"
  | Thrown text => text
  end.

(** A message of the extraction API: a list of content blocks. *)
Record ContentBlock := { type : string; text : string }.
Record Message := { content : list ContentBlock }.

(** The user content of a request: a PDF document with the prompt text, or
    one text. *)
Inductive UserContent :=
| DocumentAndText (data : string) (prompt : string)
| PlainText (prompt : string).

Record MessageCreateParams := {
  model : string;
  max_tokens : Z;
  system : string;
  user_content : UserContent
}.

(** A stored row. *)
Record Extraction := {
  id : string;
  created_at : string;
  fields : ExtractionInsert
}.

(** What the program does to the outside, in order. *)
Inductive event :=
| MessagesCreate (params : MessageCreateParams)
| ExtractText (pdfBase64 : string)
| ConsoleLog (msg : string)
| ConsoleError (msg : string) (error : option exn)
| Insert (row : ExtractionInsert).

Record World := {
  trace : list event;
  table : gmap string Extraction
}.

Definition record_event (e : event) (w : World) : World :=
  {| trace := trace w ++ [e]; table := table w |}.

Definition set_table (t : gmap string Extraction) (w : World) : World :=
  {| trace := trace w; table := t |}.

(** The collaborators, as functions of what happened before: the
    extraction API, the PDF text extractor, the JSON parser, the
    authentication and storage services and the database's own checks.
    [extractText] gives the text of the document page by page, one
    string per page: the program calls it without [mergePages];
    [storage_download]
    gives the file in base64, [None] when the download fails;
    [column_types_accept] says whether the values fit the column types
    ([DATE], [DECIMAL], ...). *)
Record Host := {
  messages_create : list event -> MessageCreateParams -> exn + Message;
  extractText : list event -> string -> exn + list string;
  JSON_parse : string -> exn + value;
  auth_getUser : option string;
  storage_download : string -> option string;
  storage_getPublicUrl : string -> string;
  gen_random_uuid : World -> string;
  now : World -> string;
  column_types_accept : ExtractionInsert -> bool
}.

(** ** Computations: state passing with exceptions *)

Definition M (A : Type) : Type := World -> (exn + A) * World.

#[global] Instance M_ret : MRet M := fun A x w => (inr x, w).

#[global] Instance M_bind : MBind M := fun A B f m w =>
  match m w with
  | (inl e, w') => (inl e, w')
  | (inr x, w') => f x w'
  end.

Definition throw {A} (e : exn) : M A := fun w => (inl e, w).

(** [try { body } catch (error) { handler }]. *)
Definition try_catch {A} (body : M A) (handler : exn -> M A) : M A :=
  fun w =>
    match body w with
    | (inl e, w') => handler e w'
    | (inr x, w') => (inr x, w')
    end.

(** A result [inl e] thrown, a result [inr x] returned. *)
Definition lift_result {A} (r : exn + A) : M A :=
  match r with
  | inl e => throw e
  | inr x => mret x
  end.

Definition emit (e : event) : M unit := fun w => (inr tt, record_event e w).

(** [l.join(sep)]. *)
Fixpoint join (sep : string) (l : list string) : string :=
  match l with
  | [] => ""
  | [x] => x
  | x :: l' => x +:+ sep +:+ join sep l'
  end.

(** [String(x)] for a string or an array of strings: an array prints as
    its elements with commas between. *)
Definition ToString (x : string + list string) : string :=
  match x with
  | inl s => s
  | inr a => join "," a
  end.

(** ** [lib/claude.ts]: the extraction pipeline

    The two prompt texts are fixed literals of the source; nothing below
    depends on what they say, so they are parameters here. *)

Section Claude.

Variable host : Host.
Variables SYSTEM_PROMPT EXTRACTION_PROMPT : string.

(** [await anthropic.messages.create(params)]. *)
Definition anthropic_messages_create (params : MessageCreateParams)
  : M Message :=
  fun w =>
    (messages_create host (trace w) params,
     record_event (MessagesCreate params) w).

(** [await extractText(new Uint8Array(Buffer.from(pdfBase64, 'base64')))]:
    the [text] of the result, the array of the pages' texts. *)
Definition unpdf_extractText (pdfBase64 : string) : M (list string) :=
  fun w =>
    (extractText host (trace w) pdfBase64,
     record_event (ExtractText pdfBase64) w).

Definition parseClaudeResponse (response : Message) : M value :=
  let textContent :=
    List.find (fun block => bool_decide (type block = "text"))
              (content response) in
  match textContent with
  | None => throw (Error "No text response from Claude")
  | Some textContent =>
      let jsonText := Js.trim (text textContent) in
      (* Remove markdown code blocks if present *)
      let jsonText :=
        if Js.startsWith jsonText "```json" then Js.slice_from 7 jsonText
        else if Js.startsWith jsonText "```" then Js.slice_from 3 jsonText
        else jsonText in
      let jsonText :=
        if Js.endsWith jsonText "```" then Js.slice_to_last 3 jsonText
        else jsonText in
      let jsonText := Js.trim jsonText in
      lift_result (JSON_parse host jsonText)
  end.

(** Truncate if needed (Claude has ~200k context). *)
Definition maxChars : Z := 150000.

Definition truncation_marker : string :=
  Js.nl +:+ Js.nl +:+ "[Document truncated due to length...]".

(** [pdfText.length > maxChars ? pdfText.slice(0, maxChars) + '...' : pdfText]
    on the array of pages: [length] counts the pages, [slice] keeps
    pages, and [+] prints the pages kept before the marker; the result is
    a string or the array itself. *)
Definition truncatedText (pdfText : list string) : string + list string :=
  if (maxChars <? Z.of_nat (length pdfText))%Z
  then inl (ToString (inr (take (Z.to_nat maxChars) pdfText))
            +:+ truncation_marker)
  else inr pdfText.

(** The template literal of the request; [${truncatedText}] prints what
    it holds. *)
Definition text_prompt (truncatedText : string + list string) : string :=
  EXTRACTION_PROMPT +:+ Js.nl +:+ Js.nl +:+ "---" +:+ Js.nl +:+ Js.nl
  +:+ "DOCUMENT TEXT:" +:+ Js.nl +:+ Js.nl +:+ ToString truncatedText.

(** Fallback: extract text from PDF and send as text. *)
Definition extractFromPdfText (pdfBase64 : string) : M value :=
  (* Decode and extract text *)
  pdfText ← unpdf_extractText pdfBase64;
  let truncatedText := truncatedText pdfText in
  response ← anthropic_messages_create
    {| model := "claude-sonnet-4-20250514";
       max_tokens := 8000;
       system := SYSTEM_PROMPT;
       user_content := PlainText (text_prompt truncatedText) |};
  parseClaudeResponse response.

(** The size-limit test of the [catch] clause. *)
Definition is_too_many_pages (errorMsg : string) : bool :=
  Js.includes errorMsg "100 PDF pages" || Js.includes errorMsg "maximum".

(** The [try] block: native PDF first (works for PDFs <= 100 pages). *)
Definition native_attempt (pdfBase64 : string) : M value :=
  response ← anthropic_messages_create
    {| model := "claude-sonnet-4-20250514";
       max_tokens := 8000;
       system := SYSTEM_PROMPT;
       user_content := DocumentAndText pdfBase64 EXTRACTION_PROMPT |};
  parseClaudeResponse response.

Definition extractFromPdf (pdfBase64 : string) : M value :=
  try_catch (native_attempt pdfBase64) (fun error =>
    (* Check if it's a "too many pages" error *)
    let errorMsg := message_or_string error in
    if is_too_many_pages errorMsg then
      _ ← emit (ConsoleLog "PDF too large, falling back to text extraction...");
      extractFromPdfText pdfBase64
    else
      _ ← emit (ConsoleError "Error extracting from PDF:" (Some error));
      throw error).

End Claude.

(** ** The [extractions] table under row-level security
    ([supabase/schema.sql])

    [id] is the primary key: the table is a finite map from [id].  The
    four policies share one predicate, [auth.uid() = user_id].  A row the
    [USING] predicate does not hold for is not seen by [SELECT], [UPDATE]
    or [DELETE]: the statement skips it and reports no error.  [INSERT]
    checks the new row ([WITH CHECK]) and so does [UPDATE], whose policy
    has no check of its own and takes the [USING] predicate for it; a row
    that fails the check is an error (SQLSTATE 42501), raised before the
    [CHECK] constraints of the columns are looked at.  Failures of the
    network or of the database server are not modelled. *)

(** [auth.uid() = user_id]; [uid] is [None] for a caller without a session. *)
Definition policy (uid : option string) (row : ExtractionInsert) : bool :=
  bool_decide (uid = Some (user_id row)).

(** [magellan_score INTEGER CHECK (magellan_score >= 1 AND magellan_score <= 10)];
    the [CHECK]s on the risk levels, the priority, the confidence and the
    status hold by the types of the fields. *)
Definition check_magellan_score (row : ExtractionInsert) : bool :=
  match magellan_score row with
  | None => true
  | Some q =>
      bool_decide (Qden (this q) = 1%positive)
      && bool_decide (1 <= Qnum (this q) <= 10)%Z
  end.

Definition insufficient_privilege : exn := PostgrestError "42501".
Definition check_violation : exn := PostgrestError "23514".
Definition unique_violation : exn := PostgrestError "23505".
Definition invalid_text_representation : exn := PostgrestError "22P02".
(** [.single()] on a result that is not exactly one row. *)
Definition PGRST116 : exn := PostgrestError "PGRST116".

Section Persistence.

Variable host : Host.

(** [.select('*').eq('id', id)] as the caller [uid]. *)
Definition select_eq_id (uid : option string) (id0 : string)
    (t : gmap string Extraction) : list Extraction :=
  match t !! id0 with
  | Some row => if policy uid (fields row) then [row] else []
  | None => []
  end.

(** [.single()]. *)
Definition single (rows : list Extraction) : exn + Extraction :=
  match rows with
  | [row] => inr row
  | _ => inl PGRST116
  end.

(** [.single()] at the end of a query that may have failed already. *)
Definition then_single (reply : exn + list Extraction) : exn + Extraction :=
  match reply with
  | inl error => inl error
  | inr rows => single rows
  end.

(** [.insert(extraction).select()]. *)
Definition db_insert (uid : option string) (extraction : ExtractionInsert)
  : M (exn + list Extraction) :=
  fun w =>
    let w1 := record_event (Insert extraction) w in
    let row := {| id := gen_random_uuid host w;
                  created_at := now host w;
                  fields := extraction |} in
    if negb (column_types_accept host extraction) then
      (inr (inl invalid_text_representation), w1)
    else if negb (policy uid extraction) then
      (inr (inl insufficient_privilege), w1)
    else if negb (check_magellan_score extraction) then
      (inr (inl check_violation), w1)
    else if bool_decide (is_Some (table w !! id row)) then
      (inr (inl unique_violation), w1)
    else
      (inr (inr [row]), set_table (<[id row := row]> (table w)) w1).

(** [.update(updates).eq('id', id).select()].  A [Partial<ExtractionInsert>]
    is the function that overwrites the fields it has. *)
Definition db_update (uid : option string)
    (updates : ExtractionInsert -> ExtractionInsert) (id0 : string)
  : M (exn + list Extraction) :=
  fun w =>
    match select_eq_id uid id0 (table w) with
    | [] => (inr (inr []), w)
    | row :: _ =>
        let row' := {| id := id row;
                       created_at := created_at row;
                       fields := updates (fields row) |} in
        if negb (column_types_accept host (fields row')) then
          (inr (inl invalid_text_representation), w)
        else if negb (policy uid (fields row')) then
          (inr (inl insufficient_privilege), w)
        else if negb (check_magellan_score (fields row')) then
          (inr (inl check_violation), w)
        else
          (inr (inr [row']), set_table (<[id row' := row']> (table w)) w)
    end.

(** [.delete().eq('id', id)]: the [error] of the reply. *)
Definition db_delete (uid : option string) (id0 : string) : M (option exn) :=
  fun w =>
    match select_eq_id uid id0 (table w) with
    | [] => (inr None, w)
    | _ :: _ => (inr None, set_table (delete id0 (table w)) w)
    end.

(** *** [lib/supabase.ts]; [uid] is the user of the caller's session. *)

(** Helper: Get single extraction by ID. *)
Definition getExtraction (uid : option string) (id0 : string)
  : M (option Extraction) :=
  fun w =>
    match single (select_eq_id uid id0 (table w)) with
    | inl error =>
        (inr None,
         record_event (ConsoleError "Error fetching extraction:" (Some error)) w)
    | inr data => (inr (Some data), w)
    end.

(** Helper: Insert new extraction. *)
Definition insertExtraction (uid : option string)
    (extraction : ExtractionInsert) : M Extraction :=
  reply ← db_insert uid extraction;
  match then_single reply with
  | inl error =>
      _ ← emit (ConsoleError "Error inserting extraction:" (Some error));
      throw error
  | inr data => mret data
  end.

(** Helper: Update extraction. *)
Definition updateExtraction (uid : option string) (id0 : string)
    (updates : ExtractionInsert -> ExtractionInsert) : M Extraction :=
  reply ← db_update uid updates id0;
  match then_single reply with
  | inl error =>
      _ ← emit (ConsoleError "Error updating extraction:" (Some error));
      throw error
  | inr data => mret data
  end.

(** Helper: Delete extraction. *)
Definition deleteExtraction (uid : option string) (id0 : string) : M bool :=
  error ← db_delete uid id0;
  match error with
  | Some error =>
      _ ← emit (ConsoleError "Error deleting extraction:" (Some error));
      throw error
  | None => mret true
  end.

End Persistence.

(** ** [app/api/extract/route.ts]: the extraction endpoint *)

Record RequestBody := {
  storagePath : option string;
  originalFilename : option string
}.

(** A request, as far as the handler reads it: [await request.json()]. *)
Record NextRequest := { json : exn + RequestBody }.

Inductive ResponseBody :=
| ErrorBody (error : string)
| RowBody (row : Extraction).

Record NextResponse := { body : ResponseBody; http_status : Z }.

Section Route.

Variable host : Host.
Variables SYSTEM_PROMPT EXTRACTION_PROMPT : string.

Definition NextResponse_json (b : ResponseBody) (st : Z)
  : M (option NextResponse) :=
  mret (Some {| body := b; http_status := st |}).

(** The [catch] clause of the handler. *)
Definition POST_catch (error : exn) : M (option NextResponse) :=
  _ ← emit (ConsoleError "Extraction error:" (Some error));
  (* Check for specific error types *)
  let errorMessage :=
    match error with
    | Error message => message
    | _ => "Extraction failed"
    end in
  (* Handle Anthropic API errors *)
  if Js.includes errorMessage "rate_limit" || Js.includes errorMessage "429"
  then NextResponse_json
         (ErrorBody "Claude API rate limit reached. Please try again in a few minutes.")
         429
  else if Js.includes errorMessage "authentication"
          || Js.includes errorMessage "401"
  then NextResponse_json
         (ErrorBody "API authentication error. Please contact support.") 401
  else if Js.includes errorMessage "overloaded"
          || Js.includes errorMessage "503"
  then NextResponse_json
         (ErrorBody "Claude API is temporarily overloaded. Please try again shortly.")
         503
  else if Js.includes errorMessage "too large"
          || Js.includes errorMessage "413"
          || Js.includes errorMessage "entity"
  then NextResponse_json
         (ErrorBody "PDF file is too large. Try a smaller file or a PDF with fewer pages.")
         413
  else if Js.includes errorMessage "could not extract"
          || Js.includes errorMessage "corrupted"
  then NextResponse_json (ErrorBody errorMessage) 422
  else if Js.includes errorMessage "timeout"
          || Js.includes errorMessage "TIMEOUT"
  then NextResponse_json
         (ErrorBody "Request timed out. The PDF may be too complex. Try a smaller file.")
         504
  else NextResponse_json (ErrorBody errorMessage) 500.

(** The handler from the validated payload on: transform to database
    format, insert into database.  The step is modelled for the payloads
    of the interface type [ClaudeExtractionResponse], as the code's cast
    has it.  A payload that passed the guard and is not of that type is
    outside the model, and the result [None] stands for it: there the
    program reads fields off values of any kind, which throws on [null]
    and stores whatever the database makes of the rest. *)
Definition POST_store (extractedData : value)
    (user_id0 fileName publicUrl : string) : M (option NextResponse) :=
  match asClaudeExtractionResponse extractedData with
  | None => mret None
  | Some response =>
      let extraction :=
        transformClaudeResponseToExtraction response user_id0 fileName
                                            publicUrl in
      reply ← db_insert host (Some user_id0) extraction;
      match then_single reply with
      | inl insertError =>
          _ ← emit (ConsoleError "Insert error:" (Some insertError));
          NextResponse_json (ErrorBody "Failed to save extraction") 500
      | inr insertedData => NextResponse_json (RowBody insertedData) 200
      end
  end.

(** The handler from the extraction on. *)
Definition POST_extract (base64 user_id0 fileName publicUrl : string)
  : M (option NextResponse) :=
  (* Extract data using Claude *)
  extractedData ← extractFromPdf host SYSTEM_PROMPT EXTRACTION_PROMPT base64;
  (* Validate the response *)
  if negb (validateExtractionResponse extractedData) then
    NextResponse_json (ErrorBody "Invalid extraction response from AI") 500
  else POST_store extractedData user_id0 fileName publicUrl.

Definition POST (request : NextRequest) : M (option NextResponse) :=
  try_catch
    ((* Get authenticated user *)
     match auth_getUser host with
     | None => NextResponse_json (ErrorBody "Unauthorized") 401
     | Some user_id0 =>
         (* Parse request body (JSON with storage path) *)
         body0 ← lift_result (json request);
         match Js.or_else (storagePath body0) None with
         | None =>
             NextResponse_json (ErrorBody "No storage path provided") 400
         | Some storagePath0 =>
             (* Validate that the path belongs to this user *)
             if negb (Js.startsWith storagePath0 (user_id0 +:+ "/")) then
               NextResponse_json (ErrorBody "Unauthorized access to file") 403
             else
               (* Download file from storage *)
               match storage_download host storagePath0 with
               | None =>
                   _ ← emit (ConsoleError "Download error:" None);
                   NextResponse_json
                     (ErrorBody "Failed to download file from storage") 500
               | Some base64 =>
                   (* Get public URL *)
                   let publicUrl := storage_getPublicUrl host storagePath0 in
                   let fileName :=
                     default "document.pdf"
                       (Js.or_else
                          (Js.or_else (originalFilename body0)
                                      (Some (Js.last_segment storagePath0)))
                          (Some "document.pdf")) in
                   POST_extract base64 user_id0 fileName publicUrl
               end
         end
     end)
    POST_catch.

End Route.

(** * Further functions of the program *)

(** ** [lib/supabase.ts]: listing the caller's extractions

    [created_at] is a [TIMESTAMPTZ] that the client sees as text; the
    database orders by the instant, which [timestamptz] reads off the
    text.  Rows of equal instant come in no promised order. *)

Section Listing.

Variable timestamptz : string -> Z.

(** [.order('created_at', { ascending: false })]. *)
Definition created_at_desc (a b : Extraction) : Prop :=
  (timestamptz (created_at b) <= timestamptz (created_at a))%Z.

#[global] Instance created_at_desc_dec : RelDecision created_at_desc.
Proof. intros a b. unfold created_at_desc. apply _. Defined.

(** [.select('*')] as the caller [uid]: the rows the policy holds for. *)
Definition select_all (uid : option string) (t : gmap string Extraction)
  : list Extraction :=
  filter (fun row => policy uid (fields row) = true) (map_to_list t).*2.

(** A failure of the query itself (the connection, the server), if any. *)
Variable select_error : list event -> option exn.

(** [.select('*').order('created_at', { ascending: false })]. *)
Definition db_select_all (uid : option string) : M (exn + list Extraction) :=
  fun w =>
    match select_error (trace w) with
    | Some error => (inr (inl error), w)
    | None =>
        (inr (inr (merge_sort created_at_desc (select_all uid (table w)))), w)
    end.

(** Helper: Get all extractions for current user. *)
Definition getExtractions (uid : option string) : M (list Extraction) :=
  reply ← db_select_all uid;
  match reply with
  | inl error =>
      _ ← emit (ConsoleError "Error fetching extractions:" (Some error));
      mret []
  | inr data => mret data
  end.

End Listing.

(** ** [lib/supabase.ts], [components/UploadZone.tsx]: the storage path

    Both places name an uploaded file
    [`${userId}/${Date.now()}-${Math.random().toString(36).substring(7)}.${fileExt}`];
    the clock and the random text are given here as the texts they print. *)

(** [s.split(sep).pop()]: what follows the last separator. *)
Fixpoint split_pop_go (sep : ascii) (acc s : string) : string :=
  match s with
  | "" => String.rev acc
  | String c s' =>
      if bool_decide (c = sep) then split_pop_go sep "" s'
      else split_pop_go sep (String c acc) s'
  end.
Definition split_pop (sep : ascii) (s : string) : string := split_pop_go sep "" s.

Definition storage_file_name (userId now random fileExt : string) : string :=
  userId +:+ "/" +:+ now +:+ "-" +:+ random +:+ "." +:+ fileExt.

Section Upload.

Variable host : Host.
(** [Date.now()] and [Math.random().toString(36).substring(7)], printed. *)
Variables Date_now Math_random_36 : string.
(** [supabase.storage.from('ni43101-pdfs').upload(fileName, file)]: the
    error, or the [path] of the stored object. *)
Variable storage_upload : string -> exn + string.

(** Helper: Upload PDF to storage; the result is [{ url, path }]. *)
Definition uploadPdf (file_name userId : string) : M (string * string) :=
  let fileExt := split_pop "."%char file_name in
  let fileName := storage_file_name userId Date_now Math_random_36 fileExt in
  match storage_upload fileName with
  | inl error =>
      _ ← emit (ConsoleError "Error uploading PDF:" (Some error));
      throw error
  | inr path => mret (storage_getPublicUrl host path, path)
  end.

End Upload.

(** ** [components/StatusBadge.tsx]: the ratio's colour and label *)

Module RatioDisplay.

Definition getColor (r : number) : string :=
  if gt r 2 then "text-green-400"
  else if ge r (Q2Qc (1 # 2)) then "text-yellow-400"
  else "text-red-400".

Definition getLabel (r : number) : string :=
  if gt r 2 then "High confidence"
  else if ge r (Q2Qc (1 # 2)) then "Moderate"
  else "Low confidence".

End RatioDisplay.

(** ** [components/ExtractionsTable.tsx]: search and filters

    [toLowerCase] on the characters below 256: the capital letters are A
    to Z and 192 to 222 without 215, each 32 below its small letter. *)

Definition toLowerCase_char (c : ascii) : ascii :=
  let n := N_of_ascii c in
  if ((65 <=? n) && (n <=? 90)
      || (192 <=? n) && (n <=? 222) && negb (n =? 215))%N
  then ascii_of_N (n + 32)
  else c.

Fixpoint toLowerCase (s : string) : string :=
  match s with
  | "" => ""
  | String c s' => String (toLowerCase_char c) (toLowerCase s')
  end.

(** A filter on an enumeration: a value of it or ['all']. *)
Inductive or_all (A : Type) :=
| all
| only (a : A).
Arguments all {A}.
Arguments only {A} a.

Module Filters.

Record ExtractionFilters := {
  status : option (or_all Status);
  priority : option (or_all Priority);
  commodity : option string;
  country : option string;
  stage : option string;
  search : option string
}.

End Filters.

Abbreviation ExtractionFilters := Filters.ExtractionFilters.

(** [v && v !== 'all'], for a filter on an enumeration and for one on a
    text (where the empty text is falsy too): the value to compare with. *)
Definition active {A} (v : option (or_all A)) : option A :=
  match v with
  | Some (only a) => Some a
  | _ => None
  end.

Definition active_text (v : option string) : option string :=
  match v with
  | Some s =>
      if bool_decide (s = "") || bool_decide (s = "all") then None else Some s
  | None => None
  end.

(** [x?.toLowerCase().includes(searchLower)], falsy for [null]. *)
Definition lower_includes (x : option string) (searchLower : string) : bool :=
  match x with
  | Some s => Js.includes (toLowerCase s) searchLower
  | None => false
  end.

Definition matches_search (searchLower : string) (e : Extraction) : bool :=
  lower_includes (project_name (fields e)) searchLower
  || lower_includes (issuer_name (fields e)) searchLower
  || lower_includes (country (fields e)) searchLower
  || lower_includes (primary_commodity (fields e)) searchLower.

(** [result.filter(e => e.field === value)] when the filter is active. *)
Definition filter_by {A} `{EqDecision A} (field : Extraction -> option A)
    (value : option A) (result : list Extraction) : list Extraction :=
  match value with
  | Some v => List.filter (fun e => bool_decide (field e = Some v)) result
  | None => result
  end.

(** [filteredExtractions] up to its sort: the search, then the five
    filters. *)
Definition filteredExtractions_unsorted (search : string)
    (filters : ExtractionFilters) (extractions : list Extraction)
  : list Extraction :=
  let result := extractions in
  (* Apply search *)
  let result :=
    if negb (bool_decide (search = ""))
    then List.filter (matches_search (toLowerCase search)) result
    else result in
  (* Apply filters *)
  let result :=
    filter_by (fun e => status (fields e)) (active (Filters.status filters))
              result in
  let result :=
    filter_by (fun e => investigation_priority (fields e))
              (active (Filters.priority filters)) result in
  let result :=
    filter_by (fun e => primary_commodity (fields e))
              (active_text (Filters.commodity filters)) result in
  let result :=
    filter_by (fun e => country (fields e))
              (active_text (Filters.country filters)) result in
  let result :=
    filter_by (fun e => report_stage (fields e))
              (active_text (Filters.stage filters)) result in
  result.

(** [Object.values(filters).filter(v => v && v !== 'all').length]. *)
Definition activeFilterCount (filters : ExtractionFilters) : nat :=
  length
    (List.filter (fun b : bool => b)
       [ bool_decide (is_Some (active (Filters.status filters)));
         bool_decide (is_Some (active (Filters.priority filters)));
         bool_decide (is_Some (active_text (Filters.commodity filters)));
         bool_decide (is_Some (active_text (Filters.country filters)));
         bool_decide (is_Some (active_text (Filters.stage filters)));
         bool_decide (is_Some (active_text (Filters.search filters))) ]).

(** ** [components/ExtractionsTable.tsx]: the CSV export

    The date format of [date-fns], the printing of a number and the texts
    of the two enumerations are parameters. *)

(** [x || '']. *)
Definition or_empty (x : option string) : string := default "" x.

Section Csv.

Variable format_date : string -> string.
Variable number_toString : number -> string.
Variable Status_text : Status -> string.
Variable Priority_text : Priority -> string.

Definition csv_headers : list string :=
  [ "Date"; "Project"; "Issuer"; "Commodity"; "Country"; "Stage";
    "Ind/Inf Ratio"; "Priority"; "Status"; "Magellan Score" ].

Definition csv_row (e : Extraction) : list string :=
  [ if bool_decide (created_at e = "") then "" else format_date (created_at e);
    or_empty (project_name (fields e));
    or_empty (issuer_name (fields e));
    or_empty (primary_commodity (fields e));
    or_empty (country (fields e));
    or_empty (report_stage (fields e));
    or_empty (number_toString <$> ind_inf_ratio (fields e));
    or_empty (Priority_text <$> investigation_priority (fields e));
    or_empty (Status_text <$> status (fields e));
    or_empty (number_toString <$> magellan_score (fields e)) ].

(** The text of the file that [exportToCsv] offers for download. *)
Definition exportToCsv (filteredExtractions : list Extraction) : string :=
  join Js.nl
       (join "," <$> (csv_headers :: (csv_row <$> filteredExtractions))).

End Csv.

(** * Notions of the specification and test data *)

(** ** The classifier's rules *)

(** The two rules in the words of the specification. *)
Definition rule_investigate (e : ExtractionInsert) : Prop :=
  investigation_priority e = Some P_high
  \/ ((exists ratio, ind_inf_ratio e = Some ratio /\ 2 < ratio)
      /\ metallurgy_risk e <> Some high)
  \/ ((report_stage e = Some "PEA"
       \/ report_stage e = Some "Preliminary Assessment")
      /\ has_economic_study e <> Some true).

Definition rule_pass (e : ExtractionInsert) : Prop :=
  investigation_priority e = Some P_pass
  \/ metallurgy_risk e = Some high
  \/ permitting_risk e = Some high.

(** ** Runs and their events *)

(** What a run from [w] to [w'] added to the trace. *)
Definition run_events (w w' : World) : list event :=
  drop (length (trace w)) (trace w').

(** A run of the text path starts by extracting the text; a request with
    the text as its content is the text path's call of the API. *)
Definition is_ExtractText (e : event) : bool :=
  match e with
  | ExtractText _ => true
  | _ => false
  end.

Definition is_MessagesCreate (e : event) : bool :=
  match e with
  | MessagesCreate _ => true
  | _ => false
  end.

Definition is_Insert (e : event) : bool :=
  match e with
  | Insert _ => true
  | _ => false
  end.

Definition text_path_invocations (evs : list event) : nat :=
  length (List.filter is_ExtractText evs).

Definition api_calls (evs : list event) : nat :=
  length (List.filter is_MessagesCreate evs).

(** The two requests of [lib/claude.ts]. *)
Definition native_request (SYSTEM_PROMPT EXTRACTION_PROMPT pdfBase64 : string)
  : MessageCreateParams :=
  {| model := "claude-sonnet-4-20250514";
     max_tokens := 8000;
     system := SYSTEM_PROMPT;
     user_content := DocumentAndText pdfBase64 EXTRACTION_PROMPT |}.

Definition text_request (SYSTEM_PROMPT EXTRACTION_PROMPT submitted : string)
  : MessageCreateParams :=
  {| model := "claude-sonnet-4-20250514";
     max_tokens := 8000;
     system := SYSTEM_PROMPT;
     user_content := PlainText (text_prompt EXTRACTION_PROMPT (inl submitted)) |}.

(** ** Persistence *)

(** The persistence claim in the words of the specification: for a caller
    who is not the owner each of the three operations ends in a failure. *)
Definition non_owner_is_refused (host : Host) : Prop :=
  forall (uid : option string) (id0 : string) (row : Extraction) (w : World)
         (updates : ExtractionInsert -> ExtractionInsert),
    table w !! id0 = Some row ->
    uid <> Some (user_id (fields row)) ->
    (exists e, (getExtraction uid id0 w).1 = inl e)
    /\ (exists e, (updateExtraction host uid id0 updates w).1 = inl e)
    /\ (exists e, (deleteExtraction uid id0 w).1 = inl e).

(** ** Test data *)

(** Test records: only the six fields the classifier reads are given. *)
Definition status_input (priority : option Priority) (ratio : option number)
    (metallurgy : option RiskLevel) (stage : option string)
    (study : option bool) (permitting : option RiskLevel) : ExtractionInsert :=
  {| user_id := "alice"; pdf_filename := None; pdf_url := None;
     issuer_name := None; project_name := None; effective_date := None;
     report_stage := stage;
     primary_commodity := None; secondary_commodities := None;
     country := None; province_state := None;
     total_indicated_mt := None; indicated_avg_grade := None;
     total_inferred_mt := None; inferred_avg_grade := None;
     total_measured_mt := None; measured_avg_grade := None;
     cutoff_grade := None; resource_date := None;
     has_economic_study := study;
     npv_aftertax_musd := None; npv_discount_rate := None;
     irr_aftertax_percent := None; capex_musd := None; opex_per_unit := None;
     payback_years := None; mine_life_years := None;
     commodity_price_assumption := None;
     metallurgy_risk := metallurgy; metallurgy_notes := None;
     permitting_risk := permitting; permitting_notes := None;
     infrastructure_risk := None; geopolitical_risk := None;
     investigation_priority := priority; priority_rationale := None;
     next_catalyst := None; catalyst_timeline := None;
     red_flags := None; positive_signals := None; magellan_score := None;
     ind_inf_ratio := ratio; resource_confidence := None;
     notes := None; status := None |}.

(** The sections may hold anything: [null] and a number pass. *)
Definition payload_of_nulls : value :=
  VObj (list_to_map
          [ ("metadata", VNull); ("project_basics", VNum 1);
            ("resource_estimate", VNull); ("economics", VStr "x");
            ("risk_assessment", VArr []); ("investment_analysis", VBool false);
            ("derived_metrics", VUndefined) ]).

(** The payload with another [derived_metrics] section. *)
Definition set_derived_metrics (dm : Payload.DerivedMetrics)
    (r : ClaudeExtractionResponse) : ClaudeExtractionResponse :=
  {| Payload.metadata := Payload.metadata r;
     Payload.project_basics := Payload.project_basics r;
     Payload.resource_estimate := Payload.resource_estimate r;
     Payload.economics := Payload.economics r;
     Payload.risk_assessment := Payload.risk_assessment r;
     Payload.investment_analysis := Payload.investment_analysis r;
     Payload.derived_metrics := dm |}.

Definition text_reply (s : string) : Message :=
  {| content := [ {| type := "text"; text := s |} ] |}.

Definition parse_only_empty_object (s : string) : exn + value :=
  if bool_decide (s = "{}") then inr (VObj ∅)
  else inl (Error "Unexpected end of JSON input").

(** A host whose API refuses the document for its page count and answers
    the text prompt with a fenced empty object. *)
Definition host_too_many_pages : Host :=
  {| messages_create := fun _ params =>
       match user_content params with
       | DocumentAndText _ _ =>
           inl (Error "A maximum of 100 PDF pages may be provided.")
       | PlainText _ => inr (text_reply "```json{}```")
       end;
     extractText := fun _ _ => inr ["NI 43-101 Technical Report"];
     JSON_parse := parse_only_empty_object;
     auth_getUser := Some "alice";
     storage_download := fun _ => Some "JVBERi0=";
     storage_getPublicUrl := fun path => "https://storage.example/" +:+ path;
     gen_random_uuid := fun _ => "row-1";
     now := fun _ => "2025-01-01T00:00:00Z";
     column_types_accept := fun _ => true |}.

(** A host whose API is throttled. *)
Definition host_rate_limited : Host :=
  {| messages_create := fun _ _ => inl (Error "429 rate_limit_error");
     extractText := fun _ _ => inr ["NI 43-101 Technical Report"];
     JSON_parse := parse_only_empty_object;
     auth_getUser := Some "alice";
     storage_download := fun _ => Some "JVBERi0=";
     storage_getPublicUrl := fun path => "https://storage.example/" +:+ path;
     gen_random_uuid := fun _ => "row-1";
     now := fun _ => "2025-01-01T00:00:00Z";
     column_types_accept := fun _ => true |}.

Definition dq : string := String "034"%char "".

(** The message of V8's [JSON.parse] for the text [maximum]: it quotes the
    text it could not read. *)
Definition v8_syntax_error_maximum : string :=
  "Unexpected token 'm', " +:+ dq +:+ "maximum" +:+ dq +:+ " is not valid JSON".

(** A host whose API answers the document with the word [maximum] and the
    text prompt with an empty object, under a parser that reports as V8
    does. *)
Definition host_unparseable_reply : Host :=
  {| messages_create := fun _ params =>
       match user_content params with
       | DocumentAndText _ _ => inr (text_reply "maximum")
       | PlainText _ => inr (text_reply "{}")
       end;
     extractText := fun _ _ => inr ["NI 43-101 Technical Report"];
     JSON_parse := fun s =>
       if bool_decide (s = "maximum") then inl (Error v8_syntax_error_maximum)
       else parse_only_empty_object s;
     auth_getUser := Some "alice";
     storage_download := fun _ => Some "JVBERi0=";
     storage_getPublicUrl := fun path => "https://storage.example/" +:+ path;
     gen_random_uuid := fun _ => "row-1";
     now := fun _ => "2025-01-01T00:00:00Z";
     column_types_accept := fun _ => true |}.

Definition empty_world : World := {| trace := []; table := ∅ |}.

Definition upload_request : NextRequest :=
  {| json := inr {| storagePath := Some "alice/1700000000000-x7k2.pdf";
                    originalFilename := Some "report.pdf" |} |}.

(** A row of alice's, alone in the table. *)
Definition alice_row : Extraction :=
  {| id := "row-1";
     created_at := "2025-01-01T00:00:00Z";
     fields := set_status (Some WATCH)
                 (status_input (Some P_medium) (Some 1) (Some low)
                               (Some "Feasibility") (Some true) (Some low)) |}.

Definition alice_world : World :=
  {| trace := []; table := {[ "row-1" := alice_row ]} |}.

(** ** The truncation of the text path *)

(** The truncation in the words of the specification, on the text of the
    document: unchanged up to 150000 characters; otherwise the first
    150000 characters and the marker. *)
Definition truncated_as_specified (text : string) : string :=
  if (Js.length text <=? maxChars)%Z then text
  else Js.slice_to maxChars text +:+ truncation_marker.

Fixpoint replicate_string (n : nat) (c : ascii) : string :=
  match n with
  | O => ""
  | S n' => String c (replicate_string n' c)
  end.

(** A document of one page, with a text of 150001 characters. *)
Definition long_page : string := replicate_string (Z.to_nat 150001) "a".

Definition host_long_page : Host :=
  {| messages_create := fun _ _ => inr (text_reply "{}");
     extractText := fun _ _ => inr [long_page];
     JSON_parse := parse_only_empty_object;
     auth_getUser := Some "alice";
     storage_download := fun _ => Some "JVBERi0=";
     storage_getPublicUrl := fun path => "https://storage.example/" +:+ path;
     gen_random_uuid := fun _ => "row-1";
     now := fun _ => "2025-01-01T00:00:00Z";
     column_types_accept := fun _ => true |}.

(** ** Further notions *)

(** A text of white space only. *)
Fixpoint all_white_space (s : string) : bool :=
  match s with
  | "" => true
  | String c s' => Js.is_white_space c && all_white_space s'
  end.

(** No slash in a text, as in the identifiers of users (UUIDs). *)
Fixpoint no_slash (s : string) : bool :=
  match s with
  | "" => true
  | String c s' => negb (bool_decide (c = "/"%char)) && no_slash s'
  end.

(** How often a character occurs in a text. *)
Fixpoint count_char (c : ascii) (s : string) : nat :=
  match s with
  | "" => 0
  | String c' s' => (if bool_decide (c' = c) then 1 else 0) + count_char c s'
  end.

(** [id] is the primary key: a row sits in the table under its own [id]. *)
Definition well_keyed (t : gmap string Extraction) : Prop :=
  forall k row, t !! k = Some row -> id row = k.


(** The HTTP statuses of the [catch] clause. *)
Definition catch_statuses : list Z := [429; 401; 503; 413; 422; 504; 500]%Z.

Definition answers_error (r : exn + option NextResponse) (statuses : list Z)
  : Prop :=
  exists msg st, r = inr (Some {| body := ErrorBody msg; http_status := st |})
                 /\ st ∈ statuses.

(** ** Further test data *)

(** A payload with the seven sections, all of them empty objects. *)
Definition typed_payload : value :=
  VObj (list_to_map
          [ ("metadata", VObj ∅); ("project_basics", VObj ∅);
            ("resource_estimate", VObj ∅); ("economics", VObj ∅);
            ("risk_assessment", VObj ∅); ("investment_analysis", VObj ∅);
            ("derived_metrics", VObj ∅) ]).

(** What it reads as: every field [null]. *)
Definition empty_response : ClaudeExtractionResponse :=
  {| Payload.metadata :=
       {| Payload.issuer_name := None; Payload.project_name := None;
          Payload.effective_date := None; Payload.report_stage := None |};
     Payload.project_basics :=
       {| Payload.primary_commodity := None;
          Payload.secondary_commodities := None;
          Payload.country := None; Payload.province_state := None |};
     Payload.resource_estimate :=
       {| Payload.total_indicated_mt := None;
          Payload.indicated_avg_grade := None;
          Payload.total_inferred_mt := None;
          Payload.inferred_avg_grade := None;
          Payload.total_measured_mt := None;
          Payload.measured_avg_grade := None;
          Payload.cutoff_grade := None; Payload.resource_date := None |};
     Payload.economics :=
       {| Payload.has_economic_study := None;
          Payload.npv_aftertax_musd := None;
          Payload.npv_discount_rate := None;
          Payload.irr_aftertax_percent := None;
          Payload.capex_musd := None; Payload.opex_per_unit := None;
          Payload.payback_years := None; Payload.mine_life_years := None;
          Payload.commodity_price_assumption := None |};
     Payload.risk_assessment :=
       {| Payload.metallurgy_risk := None; Payload.metallurgy_notes := None;
          Payload.permitting_risk := None; Payload.permitting_notes := None;
          Payload.infrastructure_risk := None;
          Payload.geopolitical_risk := None |};
     Payload.investment_analysis :=
       {| Payload.investigation_priority := None;
          Payload.priority_rationale := None; Payload.next_catalyst := None;
          Payload.catalyst_timeline := None; Payload.red_flags := None;
          Payload.positive_signals := None; Payload.magellan_score := None |};
     Payload.derived_metrics :=
       {| Payload.indicated_inferred_ratio := None;
          Payload.resource_confidence := None |} |}.

(** A host whose API answers the document with a payload that parses. *)
Definition host_typed_payload : Host :=
  {| messages_create := fun _ _ => inr (text_reply "{}");
     extractText := fun _ _ => inr ["NI 43-101 Technical Report"];
     JSON_parse := fun _ => inr typed_payload;
     auth_getUser := Some "alice";
     storage_download := fun _ => Some "JVBERi0=";
     storage_getPublicUrl := fun path => "https://storage.example/" +:+ path;
     gen_random_uuid := fun _ => "row-1";
     now := fun _ => "2025-01-01T00:00:00Z";
     column_types_accept := fun _ => true |}.

(** A host whose API refuses the document for its page count and whose
    text extractor fails on it. *)
Definition host_unextractable : Host :=
  {| messages_create := fun _ _ =>
       inl (Error "A maximum of 100 PDF pages may be provided.");
     extractText := fun _ _ => inl (Error "could not extract text");
     JSON_parse := parse_only_empty_object;
     auth_getUser := Some "alice";
     storage_download := fun _ => Some "JVBERi0=";
     storage_getPublicUrl := fun path => "https://storage.example/" +:+ path;
     gen_random_uuid := fun _ => "row-1";
     now := fun _ => "2025-01-01T00:00:00Z";
     column_types_accept := fun _ => true |}.

(** A row of bob's. *)
Definition bob_fields : ExtractionInsert :=
  transformClaudeResponseToExtraction empty_response "bob" "report.pdf"
    "https://storage.example/bob/1-a.pdf".

Definition no_filters : ExtractionFilters :=
  {| Filters.status := Some all; Filters.priority := None;
     Filters.commodity := Some "all"; Filters.country := Some "";
     Filters.stage := None; Filters.search := None |}.




(** * Properties *)

(** ** The derived-metrics calculator *)

Lemma truthy_number_true (x : option number) :
  truthy_number x = true <-> exists q, x = Some q /\ q <> 0.
Proof.
  destruct x as [q|]; simpl.
  - rewrite negb_true_iff, bool_decide_eq_false. split.
    + intros Hq. exists q. done.
    + intros (q' & [= <-] & Hq). done.
  - split; [done | intros (q & [=] & _)].
Qed.

Lemma truthy_number_false (x : option number) :
  truthy_number x = false <-> x = None \/ x = Some 0.
Proof.
  destruct x as [q|]; simpl.
  - rewrite negb_false_iff, bool_decide_eq_true. split.
    + intros ->. by right.
    + intros [[=] | [= ->]]. done.
  - split; [by left | done].
Qed.

(** The guard of [computeIndInfRatio]: which inputs give [null]. *)
Lemma computeIndInfRatio_None_iff (indicated inferred : option number) :
  computeIndInfRatio indicated inferred = None
  <-> indicated = None \/ indicated = Some 0
      \/ inferred = None \/ inferred = Some 0.
Proof.
  unfold computeIndInfRatio.
  destruct (truthy_number indicated) eqn:Hi; simpl.
  - destruct (truthy_number inferred) eqn:Hf; simpl.
    + apply truthy_number_true in Hi as (i & -> & Hi).
      apply truthy_number_true in Hf as (f & -> & Hf).
      rewrite bool_decide_eq_false_2 by congruence.
      split; [done | intros [|[|[|]]]; congruence].
    + apply truthy_number_false in Hf. split; [tauto | done].
  - apply truthy_number_false in Hi. split; [tauto | done].
Qed.

(** Past the guard the result is the quotient through [toFixed(2)]. *)
Lemma computeIndInfRatio_Some (i f : number) :
  i <> 0 -> f <> 0 ->
  computeIndInfRatio (Some i) (Some f) = Some (toFixed2 (i / f)).
Proof.
  intros Hi Hf. unfold computeIndInfRatio; simpl.
  rewrite !bool_decide_eq_false_2 by congruence. done.
Qed.

(** [toFixed(2)] picks the nearest hundredth of [|x|], the larger of two. *)
Lemma toFixed2_n_nearest (x : number) :
  let a := Z.abs (Qnum (this x)) in
  let d := Zpos (Qden (this x)) in
  (2 * d * toFixed2_n x - d <= 200 * a < 2 * d * toFixed2_n x + d)%Z.
Proof.
  intros a d. unfold toFixed2_n. fold a d.
  assert (Hd : (0 < 2 * d)%Z) by (unfold d; lia).
  pose proof (Z.mul_div_le (2 * 100 * a + d) (2 * d) Hd).
  pose proof (Z.mul_succ_div_gt (2 * 100 * a + d) (2 * d) Hd).
  lia.
Qed.

(** So the result is within half a hundredth of the number, and is a
    whole number of hundredths: the number rounded to 2 decimals. *)
Lemma toFixed2_close (x : number) :
  toFixed2 x - x <= Q2Qc (1 # 200) /\ x - toFixed2 x <= Q2Qc (1 # 200).
Proof.
  assert (H := toFixed2_n_nearest x). cbv zeta in H.
  unfold toFixed2. set (n := toFixed2_n x) in *. clearbody n.
  destruct x as [[num den] Hc]. simpl in H.
  unfold Qcle, Qcminus, Qcplus, Qcopp; simpl.
  rewrite !Qred_correct.
  unfold Qle, Qminus, Qplus, Qopp; simpl.
  split; nia.
Qed.

Lemma toFixed2_hundredths (x : number) :
  exists n : Z, toFixed2 x = Q2Qc (n # 100).
Proof. by eexists. Qed.

Example computeIndInfRatio_10_4 :
  computeIndInfRatio (Some (Q2Qc 10)) (Some (Q2Qc 4)) = Some (Q2Qc (250 # 100)).
Proof. reflexivity. Qed.

Example computeIndInfRatio_5_0 :
  computeIndInfRatio (Some (Q2Qc 5)) (Some 0) = None.
Proof. reflexivity. Qed.

Example computeIndInfRatio_1_8 :
  computeIndInfRatio (Some 1) (Some (Q2Qc 8)) = Some (Q2Qc (13 # 100)).
Proof. reflexivity. Qed.

(** C1.  The ratio is [null] if and only if [indicated] is [null],
    [inferred] is [null] or [inferred] is 0, and is the rounded quotient
    otherwise, so for [indicated = 0] and [inferred = 4] it is 0.00.  The
    code does otherwise there: the guard [!indicated] takes 0 for an absent
    value and the function returns [null]. *)
Theorem computeIndInfRatio_zero_indicated :
  computeIndInfRatio (Some 0) (Some (Q2Qc 4)) = None
  /\ toFixed2 (0 / Q2Qc 4) = 0.
Proof. split; [reflexivity | by apply Qc_is_canon]. Qed.

(** C3.  The confidence bucket: [null] for a [null] ratio, [high] above 2,
    [moderate] from 0.5 to 2 with both ends, [low] below 0.5; so 2.0 and
    0.5 are [moderate], 2.01 is [high] and 0.49 is [low]. *)
Theorem computeResourceConfidence_buckets :
  computeResourceConfidence None = None
  /\ (forall ratio : number,
        (2 < ratio -> computeResourceConfidence (Some ratio) = Some RC_high)
        /\ (Q2Qc (1 # 2) <= ratio <= 2 ->
            computeResourceConfidence (Some ratio) = Some RC_moderate)
        /\ (ratio < Q2Qc (1 # 2) ->
            computeResourceConfidence (Some ratio) = Some RC_low))
  /\ computeResourceConfidence (Some 2) = Some RC_moderate
  /\ computeResourceConfidence (Some (Q2Qc (201 # 100))) = Some RC_high
  /\ computeResourceConfidence (Some (Q2Qc (1 # 2))) = Some RC_moderate
  /\ computeResourceConfidence (Some (Q2Qc (49 # 100))) = Some RC_low.
Proof.
  split; [done|]. split; [|by repeat split].
  intros ratio. unfold computeResourceConfidence, gt, ge.
  repeat split.
  - intros H. by rewrite bool_decide_eq_true_2.
  - intros [Hlo Hhi].
    rewrite bool_decide_eq_false_2 by (by apply Qcle_not_lt).
    by rewrite bool_decide_eq_true_2.
  - intros H.
    assert (H2 : ratio < 2).
    { eapply Qclt_trans; [exact H | done]. }
    rewrite bool_decide_eq_false_2 by (apply Qcle_not_lt; by apply Qclt_le_weak).
    rewrite bool_decide_eq_false_2 by (by apply Qclt_not_le).
    done.
Qed.

(** ** The status classifier *)

Lemma ratio_above_2 (x : option number) :
  truthy_number x && from_option (fun r => gt r 2) false x = true
  <-> exists ratio, x = Some ratio /\ 2 < ratio.
Proof.
  destruct x as [r|]; simpl.
  - unfold gt. rewrite andb_true_iff, negb_true_iff, bool_decide_eq_false,
      bool_decide_eq_true. split.
    + intros [_ H]. eauto.
    + intros (r' & [= <-] & H). split; [|done].
      intros ->. by apply (Qclt_not_le 2 0).
  - split; [done | intros (r & [=] & _)].
Qed.

Lemma truthy_bool_false (x : option bool) :
  negb (truthy_bool x) = true <-> x <> Some true.
Proof. destruct x as [[]|]; simpl; split; congruence. Qed.

Lemma rule_investigate_test (e : ExtractionInsert) :
  bool_decide (investigation_priority e = Some P_high)
  || (truthy_number (ind_inf_ratio e)
      && from_option (fun r => gt r 2) false (ind_inf_ratio e)
      && negb (bool_decide (metallurgy_risk e = Some high)))
  || ((bool_decide (report_stage e = Some "PEA")
       || bool_decide (report_stage e = Some "Preliminary Assessment"))
      && negb (truthy_bool (has_economic_study e))) = true
  <-> rule_investigate e.
Proof.
  unfold rule_investigate.
  rewrite !orb_true_iff, !andb_true_iff, orb_true_iff, <- andb_true_iff.
  rewrite ratio_above_2, truthy_bool_false, negb_true_iff.
  rewrite !bool_decide_eq_true, bool_decide_eq_false. tauto.
Qed.

Lemma rule_pass_test (e : ExtractionInsert) :
  bool_decide (investigation_priority e = Some P_pass)
  || bool_decide (metallurgy_risk e = Some high)
  || bool_decide (permitting_risk e = Some high) = true
  <-> rule_pass e.
Proof.
  unfold rule_pass. rewrite !orb_true_iff, !bool_decide_eq_true. tauto.
Qed.

(** C2.  The classifier returns one label by first match: Investigate when
    rule 1 holds; otherwise Pass when rule 2 holds; otherwise Watch.  A
    record with priority high and metallurgy risk high is Investigate. *)
Theorem computeStatus_first_match (e : ExtractionInsert) :
  (rule_investigate e -> computeStatus e = INVESTIGATE)
  /\ (~ rule_investigate e -> rule_pass e -> computeStatus e = PASS)
  /\ (~ rule_investigate e -> ~ rule_pass e -> computeStatus e = WATCH)
  /\ (investigation_priority e = Some P_high ->
      metallurgy_risk e = Some high -> computeStatus e = INVESTIGATE).
Proof.
  assert (H1 := rule_investigate_test e). assert (H2 := rule_pass_test e).
  unfold computeStatus; cbv zeta.
  repeat match goal with |- context [if ?b then _ else _] =>
    lazymatch b with
    | context [if _ then _ else _] => fail
    | _ => destruct b eqn:?
    end end.
  - repeat split; try done; intros Hn; exfalso; apply Hn; by apply H1.
  - assert (Hn : ~ rule_investigate e) by (rewrite <- H1; congruence).
    repeat split; try done.
    + intros _ Hp. exfalso. apply Hp. by apply H2.
    + intros Hh _. exfalso. apply Hn. by left.
  - assert (Hn : ~ rule_investigate e) by (rewrite <- H1; congruence).
    assert (Hp : ~ rule_pass e) by (rewrite <- H2; congruence).
    repeat split; try done.
    intros Hh _. exfalso. apply Hn. by left.
Qed.

Example computeStatus_high_priority_high_metallurgy :
  computeStatus
    (status_input (Some P_high) None (Some high) (Some "Feasibility")
                  (Some true) (Some low))
  = INVESTIGATE.
Proof. reflexivity. Qed.

Example computeStatus_default_watch :
  computeStatus
    (status_input (Some P_medium) (Some 1) (Some low) (Some "Feasibility")
                  (Some true) (Some low))
  = WATCH.
Proof. reflexivity. Qed.

Example computeStatus_pass :
  computeStatus
    (status_input (Some P_low) (Some (Q2Qc 3)) (Some high) (Some "PFS")
                  None (Some low))
  = PASS.
Proof. reflexivity. Qed.

Example computeStatus_PEA_without_study :
  computeStatus
    (status_input (Some P_pass) None (Some high) (Some "PEA") None (Some high))
  = INVESTIGATE.
Proof. reflexivity. Qed.

(** The classifier reads six fields and no other. *)
Lemma computeStatus_six_fields (e : ExtractionInsert) :
  computeStatus e
  = computeStatus
      (status_input (investigation_priority e) (ind_inf_ratio e)
                    (metallurgy_risk e) (report_stage e)
                    (has_economic_study e) (permitting_risk e)).
Proof. reflexivity. Qed.

(** ** Validation of the payload *)

Lemma all_keys_in_Forall (keys : list string) (obj : value) :
  all_keys_in keys obj = true <-> Forall (fun key => key_in key obj = true) keys.
Proof.
  induction keys as [|key keys IH]; simpl.
  - split; [constructor | done].
  - rewrite Forall_cons, <- IH.
    destruct (key_in key obj); simpl; split; try done; tauto.
Qed.

(** One required key that is not in the value is enough to fail. *)
Lemma validateExtractionResponse_missing (data : value) (key : string) :
  key ∈ requiredKeys ->
  key_in key data = false ->
  validateExtractionResponse data = false.
Proof.
  intros Hkey Hmissing. unfold validateExtractionResponse.
  destruct (negb (truthy data) || negb (bool_decide (typeof data = "object")));
    [done|].
  apply not_true_is_false. rewrite all_keys_in_Forall, Forall_forall.
  intros Hall. specialize (Hall key Hkey). congruence.
Qed.

(** No array has one of the required keys. *)
Lemma all_keys_in_array (l : list value) :
  all_keys_in requiredKeys (VArr l) = false.
Proof. reflexivity. Qed.

(** C10.  The validator returns [true] exactly for the objects that have
    all seven top-level keys, whatever is stored under them; so it returns
    [false] for every value that is no object and for every object that
    lacks one of the keys. *)
Theorem validateExtractionResponse_iff (data : value) :
  validateExtractionResponse data = true
  <-> exists m, data = VObj m
                /\ forall key, key ∈ requiredKeys -> is_Some (m !! key).
Proof.
  unfold validateExtractionResponse.
  destruct data as [| |b|q|s|l|m].
  7:{ change (all_keys_in requiredKeys (VObj m) = true <->
              exists m', VObj m = VObj m'
                         /\ forall key, key ∈ requiredKeys -> is_Some (m' !! key)).
      rewrite all_keys_in_Forall, Forall_forall. split.
      - intros H. exists m. split; [done|]. intros key Hk.
        specialize (H key Hk). simpl in H. by apply bool_decide_eq_true in H.
      - intros (m' & [= <-] & H) key Hk. simpl.
        apply bool_decide_eq_true. by apply H. }
  all: simpl; split; [| by intros (m' & [=] & _)].
  - done.
  - done.
  - by destruct b.
  - by destruct (bool_decide (q = 0)).
  - by destruct (bool_decide (s = EmptyString)).
  - done.
Qed.

Example validateExtractionResponse_any_shape :
  validateExtractionResponse payload_of_nulls = true.
Proof. by vm_compute. Qed.

Example validateExtractionResponse_missing_key :
  validateExtractionResponse
    (VObj (list_to_map
             [ ("metadata", VObj ∅); ("project_basics", VObj ∅);
               ("resource_estimate", VObj ∅); ("economics", VObj ∅);
               ("risk_assessment", VObj ∅); ("investment_analysis", VObj ∅) ]))
  = false.
Proof. by vm_compute. Qed.

Example validateExtractionResponse_non_objects :
  validateExtractionResponse VNull = false
  /\ validateExtractionResponse VUndefined = false
  /\ validateExtractionResponse (VStr "metadata") = false
  /\ validateExtractionResponse (VNum 1) = false
  /\ validateExtractionResponse (VBool true) = false
  /\ validateExtractionResponse (VArr [VNull]) = false.
Proof. by repeat split. Qed.

(** ** The response transformer *)

(** C7.  The record the transformer produces has the ratio computed from
    the payload's tonnages, the confidence of that ratio, the status of
    the assembled record and no notes; the payload's own derived metrics
    have no influence on it. *)
Theorem transform_derived_fields (response : ClaudeExtractionResponse)
    (userId pdfFilename pdfUrl : string) :
  let e := transformClaudeResponseToExtraction response userId pdfFilename
                                               pdfUrl in
  ind_inf_ratio e
    = computeIndInfRatio
        (Payload.total_indicated_mt (Payload.resource_estimate response))
        (Payload.total_inferred_mt (Payload.resource_estimate response))
  /\ resource_confidence e = computeResourceConfidence (ind_inf_ratio e)
  /\ status e = Some (computeStatus e)
  /\ status e = Some (computeStatus (set_status None e))
  /\ notes e = None
  /\ forall dm,
       transformClaudeResponseToExtraction (set_derived_metrics dm response)
                                           userId pdfFilename pdfUrl = e.
Proof. by repeat split. Qed.

(** ** The extraction pipeline *)

Lemma run_events_refl (w : World) : run_events w w = [].
Proof. unfold run_events. by rewrite drop_all. Qed.

Lemma run_events_app (w w' : World) (evs : list event) :
  trace w' = (trace w ++ evs)%list -> run_events w w' = evs.
Proof. intros H. unfold run_events. rewrite H. by rewrite drop_app_length. Qed.

Lemma take_drop_string (n : nat) (s : string) :
  Js.take n s +:+ Js.drop n s = s.
Proof.
  revert s. induction n as [|n IH]; intros [|c s]; simpl; try done.
  change (String c (Js.take n s +:+ Js.drop n s) = String c s).
  by rewrite IH.
Qed.

Lemma string_app_length (s1 s2 : string) :
  String.length (s1 +:+ s2) = (String.length s1 + String.length s2)%nat.
Proof.
  induction s1 as [|c s1 IH]; [done|].
  change (S (String.length (s1 +:+ s2))
          = S (String.length s1 + String.length s2)). by rewrite IH.
Qed.

Lemma length_take_string (n : nat) (s : string) :
  (n <= String.length s)%nat -> String.length (Js.take n s) = n.
Proof.
  revert s. induction n as [|n IH]; intros [|c s]; simpl; try done; try lia.
  intros H. rewrite IH; lia.
Qed.

Lemma length_drop_string (n : nat) (s : string) :
  String.length (Js.drop n s) = (String.length s - n)%nat.
Proof.
  revert s. induction n as [|n IH]; intros [|c s]; simpl; try done.
Qed.

Lemma bind_emit {A} (e : event) (k : M A) (w : World) :
  (emit e ≫= fun _ => k) w = k (record_event e w).
Proof. reflexivity. Qed.

Lemma throw_run {A} (e : exn) (w : World) : @throw A e w = (inl e, w).
Proof. reflexivity. Qed.

(** Printing twice is printing once. *)
Lemma text_prompt_printed (EXTRACTION_PROMPT : string)
    (x : string + list string) :
  text_prompt EXTRACTION_PROMPT (inl (ToString x))
  = text_prompt EXTRACTION_PROMPT x.
Proof. reflexivity. Qed.

(** The trace after some events, read off the world. *)
Ltac run_events_calc :=
  unfold run_events, record_event; simpl;
  rewrite <- ?app_assoc; rewrite drop_app_length; simpl.

(** Every event of an explicit list passes a boolean test. *)
Ltac each_event :=
  repeat (constructor; [reflexivity|]); constructor.

Section PipelineProperties.

Variable host : Host.
Variables SYSTEM_PROMPT EXTRACTION_PROMPT : string.

Local Abbreviation parse := (parseClaudeResponse host).
Local Abbreviation textPath := (extractFromPdfText host SYSTEM_PROMPT EXTRACTION_PROMPT).
Local Abbreviation nativeTry := (native_attempt host SYSTEM_PROMPT EXTRACTION_PROMPT).
Local Abbreviation extract := (extractFromPdf host SYSTEM_PROMPT EXTRACTION_PROMPT).

(** Parsing a reply does nothing to the world. *)
Lemma parseClaudeResponse_world (response : Message) (w : World) :
  (parse response w).2 = w.
Proof.
  unfold parseClaudeResponse.
  destruct (find _ _) as [b|]; [|done].
  unfold lift_result. by destruct (JSON_parse host _).
Qed.

(** Its result does not depend on the world either. *)
Lemma parseClaudeResponse_pure (response : Message) (w w' : World) :
  parse response w = ((parse response w').1, w).
Proof.
  unfold parseClaudeResponse.
  destruct (find _ _) as [b|]; [|done].
  unfold lift_result. by destruct (JSON_parse host _).
Qed.

(** The native attempt is one call of the API with the document. *)
Lemma native_attempt_world (pdfBase64 : string) (w : World) :
  (nativeTry pdfBase64 w).2
  = record_event
      (MessagesCreate (native_request SYSTEM_PROMPT EXTRACTION_PROMPT pdfBase64))
      w.
Proof.
  unfold native_attempt, mbind, M_bind, anthropic_messages_create.
  destruct (messages_create host _ _) as [e|m]; [done|].
  assert (H := parseClaudeResponse_world m
                 (record_event
                    (MessagesCreate
                       (native_request SYSTEM_PROMPT EXTRACTION_PROMPT pdfBase64))
                    w)).
  unfold native_request in *.
  destruct (parse m _) as [[e|v] w']; simpl in *; by subst.
Qed.

(** The text path extracts the text and, if that works, calls the API once
    with the text prompt. *)
Lemma extractFromPdfText_world (pdfBase64 : string) (w : World) :
  (textPath pdfBase64 w).2
  = match extractText host (trace w) pdfBase64 with
    | inl _ => record_event (ExtractText pdfBase64) w
    | inr pdfText =>
        record_event
          (MessagesCreate
             (text_request SYSTEM_PROMPT EXTRACTION_PROMPT
                           (ToString (truncatedText pdfText))))
          (record_event (ExtractText pdfBase64) w)
    end.
Proof.
  unfold extractFromPdfText, mbind, M_bind, unpdf_extractText,
    anthropic_messages_create.
  destruct (extractText host _ _) as [e|pdfText]; [done|].
  destruct (messages_create host _ _) as [e|m]; [done|].
  match goal with |- context [parse m ?w0] =>
    assert (H := parseClaudeResponse_world m w0);
    destruct (parse m w0) as [[e|v] w']; simpl in *; by subst
  end.
Qed.

Lemma extractFromPdfText_events (pdfBase64 : string) (w : World) :
  text_path_invocations (run_events w (textPath pdfBase64 w).2) = 1%nat
  /\ (api_calls (run_events w (textPath pdfBase64 w).2) <= 1)%nat
  /\ table (textPath pdfBase64 w).2 = table w
  /\ Forall (fun e => is_Insert e = false) (run_events w (textPath pdfBase64 w).2).
Proof.
  rewrite extractFromPdfText_world.
  destruct (extractText host _ _) as [e|pdfText].
  - rewrite (run_events_app w _ [ExtractText pdfBase64]) by done.
    split; [done|]. split; [cbn; lia|]. split; [done|]. each_event.
  - rewrite (run_events_app w _
               [ExtractText pdfBase64;
                MessagesCreate (text_request SYSTEM_PROMPT EXTRACTION_PROMPT
                                             (ToString (truncatedText pdfText)))]).
    + split; [done|]. split; [cbn; lia|]. split; [done|]. each_event.
    + simpl. by rewrite <- app_assoc.
Qed.

(** What the whole extraction does to the world: the table is not touched
    and nothing is inserted; the API is called twice at most. *)
Lemma extractFromPdf_events (pdfBase64 : string) (w : World) :
  table (extract pdfBase64 w).2 = table w
  /\ Forall (fun e => is_Insert e = false) (run_events w (extract pdfBase64 w).2)
  /\ (api_calls (run_events w (extract pdfBase64 w).2) <= 2)%nat.
Proof.
  unfold extractFromPdf, try_catch.
  assert (Hw := native_attempt_world pdfBase64 w).
  destruct (nativeTry pdfBase64 w) as [[error|v] w1]; simpl in Hw; subst w1.
  - destruct (is_too_many_pages _).
    + rewrite bind_emit, extractFromPdfText_world.
      destruct (extractText host _ _) as [e|pdfText];
        (split; [done|]); run_events_calc;
        (split; [each_event | cbn; lia]).
    + rewrite bind_emit, throw_run.
      split; [done|]. run_events_calc.
      split; [each_event | cbn; lia].
  - simpl. split; [done|]. run_events_calc.
    split; [each_event | cbn; lia].
Qed.

(** The [catch] clause, for a native attempt that failed. *)
Lemma extractFromPdf_catch (pdfBase64 : string) (w w1 : World) (error : exn) :
  nativeTry pdfBase64 w = (inl error, w1) ->
  extract pdfBase64 w
  = if is_too_many_pages (message_or_string error)
    then textPath pdfBase64
           (record_event
              (ConsoleLog "PDF too large, falling back to text extraction...")
              w1)
    else (inl error,
          record_event
            (ConsoleError "Error extracting from PDF:" (Some error)) w1).
Proof.
  intros Hnative. unfold extractFromPdf, try_catch. rewrite Hnative.
  destruct (is_too_many_pages _); by rewrite bind_emit.
Qed.

(** C5.  When the native attempt fails, the text path is run, once, and
    its result returned if the failure's message matches the size-limit
    pattern; for any other message the failure is passed on and the text
    path is not run. *)
Theorem extractFromPdf_fallback (pdfBase64 : string) (w w1 : World)
    (error : exn) :
  nativeTry pdfBase64 w = (inl error, w1) ->
  let out := extract pdfBase64 w in
  (is_too_many_pages (message_or_string error) = true ->
   out = textPath pdfBase64
           (record_event
              (ConsoleLog "PDF too large, falling back to text extraction...")
              w1)
   /\ text_path_invocations (run_events w out.2) = 1%nat)
  /\ (is_too_many_pages (message_or_string error) = false ->
      out.1 = inl error
      /\ text_path_invocations (run_events w out.2) = 0%nat
      /\ api_calls (run_events w out.2) = 1%nat).
Proof.
  intros Hnative out. subst out.
  rewrite (extractFromPdf_catch pdfBase64 w w1 error Hnative).
  assert (Hw := native_attempt_world pdfBase64 w).
  rewrite Hnative in Hw. simpl in Hw. subst w1.
  split; intros ->.
  - split; [done|].
    rewrite extractFromPdfText_world.
    destruct (extractText host _ _) as [e|pdfText]; by run_events_calc.
  - split; [done|]. by run_events_calc.
Qed.

(** A reply without a text block is a failure after one call of the API. *)
Lemma extractFromPdf_no_text_block (pdfBase64 : string) (w : World)
    (response : Message) :
  messages_create host (trace w)
    (native_request SYSTEM_PROMPT EXTRACTION_PROMPT pdfBase64) = inr response ->
  find (fun block => bool_decide (type block = "text")) (content response) = None ->
  (extract pdfBase64 w).1 = inl (Error "No text response from Claude")
  /\ api_calls (run_events w (extract pdfBase64 w).2) = 1%nat.
Proof.
  intros Hreply Hfind.
  unfold extractFromPdf, try_catch, native_attempt, mbind, M_bind,
    anthropic_messages_create, parseClaudeResponse.
  unfold native_request in Hreply. rewrite Hreply, Hfind. simpl.
  split; [done|]. by run_events_calc.
Qed.

(** A reply the parser rejects is a failure after one call of the API,
    provided the parser's message does not match the size-limit pattern. *)
Lemma extractFromPdf_malformed_reply (pdfBase64 : string) (w : World)
    (response : Message) (error : exn) :
  messages_create host (trace w)
    (native_request SYSTEM_PROMPT EXTRACTION_PROMPT pdfBase64) = inr response ->
  (parse response w).1 = inl error ->
  is_too_many_pages (message_or_string error) = false ->
  (extract pdfBase64 w).1 = inl error
  /\ api_calls (run_events w (extract pdfBase64 w).2) = 1%nat.
Proof.
  intros Hreply Hparse Hmsg.
  assert (Hnative : exists w2, nativeTry pdfBase64 w = (inl error, w2)).
  { unfold native_attempt, mbind, M_bind, anthropic_messages_create.
    unfold native_request in Hreply. rewrite Hreply.
    match goal with |- context [parse response ?w0] =>
      rewrite (parseClaudeResponse_pure response w0 w), Hparse end.
    eauto. }
  destruct Hnative as [w2 Hnative].
  rewrite (extractFromPdf_catch pdfBase64 w w2 error Hnative), Hmsg.
  assert (Hw := native_attempt_world pdfBase64 w).
  rewrite Hnative in Hw. simpl in Hw. subst w2.
  split; [done|]. by run_events_calc.
Qed.

(** In the text path every failure of the parser is the result. *)
Lemma extractFromPdfText_malformed_reply (pdfBase64 : string) (w : World)
    (pdfText : list string) (response : Message) (error : exn) :
  extractText host (trace w) pdfBase64 = inr pdfText ->
  messages_create host (trace (record_event (ExtractText pdfBase64) w))
    (text_request SYSTEM_PROMPT EXTRACTION_PROMPT
                  (ToString (truncatedText pdfText)))
  = inr response ->
  (parse response w).1 = inl error ->
  (textPath pdfBase64 w).1 = inl error
  /\ api_calls (run_events w (textPath pdfBase64 w).2) = 1%nat.
Proof.
  intros Htext Hreply Hparse.
  split.
  - unfold extractFromPdfText, mbind, M_bind, unpdf_extractText,
      anthropic_messages_create.
    rewrite Htext. unfold text_request in Hreply.
    rewrite text_prompt_printed in Hreply. simpl in *. rewrite Hreply.
    match goal with |- context [parse response ?w0] =>
      rewrite (parseClaudeResponse_pure response w0 w), Hparse end.
    done.
  - rewrite extractFromPdfText_world, Htext. by run_events_calc.
Qed.

(** What the text path submits: the request of the text prompt around
    what the truncation left, printed. *)
Lemma extractFromPdfText_submits (pdfBase64 : string) (w : World)
    (pdfText : list string) :
  extractText host (trace w) pdfBase64 = inr pdfText ->
  run_events w (textPath pdfBase64 w).2
  = [ExtractText pdfBase64;
     MessagesCreate (text_request SYSTEM_PROMPT EXTRACTION_PROMPT
                                  (ToString (truncatedText pdfText)))].
Proof.
  intros Htext. rewrite extractFromPdfText_world, Htext. by run_events_calc.
Qed.

End PipelineProperties.

(** ** The endpoint *)

Section RouteProperties.

Variable host : Host.
Variables SYSTEM_PROMPT EXTRACTION_PROMPT : string.

Local Abbreviation extract := (extractFromPdf host SYSTEM_PROMPT EXTRACTION_PROMPT).
Local Abbreviation handler := (POST host SYSTEM_PROMPT EXTRACTION_PROMPT).

(** The handler up to the extraction, for a request that gets there. *)
Lemma POST_reaches_extraction (request : NextRequest) (w : World)
    (user : string) (body0 : RequestBody) (path base64 : string) :
  auth_getUser host = Some user ->
  json request = inr body0 ->
  storagePath body0 = Some path ->
  path <> "" ->
  Js.startsWith path (user +:+ "/") = true ->
  storage_download host path = Some base64 ->
  handler request w
  = try_catch
      (POST_extract host SYSTEM_PROMPT EXTRACTION_PROMPT base64 user
         (default "document.pdf"
            (Js.or_else
               (Js.or_else (originalFilename body0)
                           (Some (Js.last_segment path)))
               (Some "document.pdf")))
         (storage_getPublicUrl host path))
      (POST_catch) w.
Proof.
  intros Hauth Hjson Hpath Hne Hprefix Hdownload.
  unfold POST, try_catch. rewrite Hauth, Hjson.
  unfold lift_result, mbind, M_bind, mret, M_ret.
  rewrite Hpath.
  destruct path as [|c path]; [done|].
  change (Js.or_else (Some (String c path)) None) with (Some (String c path)).
  cbv beta iota. rewrite Hprefix, Hdownload. done.
Qed.

(** C4.  A payload that lacks one of the seven required sections is
    answered with the validation error; the transformation and the insert
    are not reached: the world is as the extraction left it, the table
    unchanged and no row inserted. *)
Theorem POST_rejects_incomplete_payload (request : NextRequest) (w w1 : World)
    (user : string) (body0 : RequestBody) (path base64 : string)
    (extractedData : value) (key : string) :
  auth_getUser host = Some user ->
  json request = inr body0 ->
  storagePath body0 = Some path ->
  path <> "" ->
  Js.startsWith path (user +:+ "/") = true ->
  storage_download host path = Some base64 ->
  extract base64 w = (inr extractedData, w1) ->
  key ∈ requiredKeys ->
  key_in key extractedData = false ->
  handler request w
  = (inr (Some {| body := ErrorBody "Invalid extraction response from AI";
                  http_status := 500 |}),
     w1)
  /\ table w1 = table w
  /\ Forall (fun e => is_Insert e = false) (run_events w w1).
Proof.
  intros Hauth Hjson Hpath Hne Hprefix Hdownload Hextract Hkey Hmissing.
  assert (Hinvalid := validateExtractionResponse_missing extractedData key
                        Hkey Hmissing).
  split.
  - rewrite (POST_reaches_extraction request w user body0 path base64) by done.
    unfold try_catch, POST_extract, mbind, M_bind.
    rewrite Hextract, Hinvalid. done.
  - destruct (extractFromPdf_events host SYSTEM_PROMPT EXTRACTION_PROMPT base64 w)
      as (Ht & Hev & _).
    rewrite Hextract in Ht, Hev. done.
Qed.

(** The validation comes first: a payload that fails it gets the same
    answer whatever the transformer and the database would do with it. *)
Lemma POST_extract_invalid (base64 user fileName publicUrl : string)
    (w w1 : World) (extractedData : value) :
  extract base64 w = (inr extractedData, w1) ->
  validateExtractionResponse extractedData = false ->
  POST_extract host SYSTEM_PROMPT EXTRACTION_PROMPT base64 user fileName
               publicUrl w
  = (inr (Some {| body := ErrorBody "Invalid extraction response from AI";
                  http_status := 500 |}),
     w1).
Proof.
  intros Hextract Hinvalid. unfold POST_extract, mbind, M_bind.
  by rewrite Hextract, Hinvalid.
Qed.


End RouteProperties.

(** ** Persistence under row-level security *)

Section PersistenceProperties.

Variable host : Host.

(** Exactly one user passes the policy of a row: its owner. *)
Lemma policy_owner (row : ExtractionInsert) (uid : option string) :
  policy uid row = true <-> uid = Some (user_id row).
Proof. unfold policy. by rewrite bool_decide_eq_true. Qed.

Lemma select_eq_id_non_owner (uid : option string) (id0 : string)
    (t : gmap string Extraction) (row : Extraction) :
  t !! id0 = Some row ->
  uid <> Some (user_id (fields row)) ->
  select_eq_id uid id0 t = [].
Proof.
  intros Hrow Hne. unfold select_eq_id, policy. rewrite Hrow.
  by rewrite bool_decide_eq_false_2.
Qed.

Lemma select_eq_id_owner (id0 : string) (t : gmap string Extraction)
    (row : Extraction) :
  t !! id0 = Some row ->
  select_eq_id (Some (user_id (fields row))) id0 t = [row].
Proof.
  intros Hrow. unfold select_eq_id, policy. rewrite Hrow.
  by rewrite bool_decide_eq_true_2.
Qed.

(** The three operations on a row of another user. *)
Lemma non_owner_answers (uid : option string) (id0 : string)
    (row : Extraction) (w : World)
    (updates : ExtractionInsert -> ExtractionInsert) :
  table w !! id0 = Some row ->
  uid <> Some (user_id (fields row)) ->
  getExtraction uid id0 w
  = (inr None,
     record_event (ConsoleError "Error fetching extraction:" (Some PGRST116)) w)
  /\ updateExtraction host uid id0 updates w
     = (inl PGRST116,
        record_event
          (ConsoleError "Error updating extraction:" (Some PGRST116)) w)
  /\ deleteExtraction uid id0 w = (inr true, w).
Proof.
  intros Hrow Hne.
  assert (Hsel := select_eq_id_non_owner uid id0 (table w) row Hrow Hne).
  split; [|split].
  - unfold getExtraction. by rewrite Hsel.
  - unfold updateExtraction, mbind, M_bind, db_update. by rewrite Hsel.
  - unfold deleteExtraction, mbind, M_bind, db_delete. by rewrite Hsel.
Qed.

(** C9, as the code has it.  A stored row has one owner, the one user its
    policy holds for.  For a caller who is not the owner the row does not
    exist: [getExtraction] returns [null], [updateExtraction] throws the
    no-row error of [.single()], [deleteExtraction] returns [true]; none
    of them changes the table, and nothing of the row is returned. *)
Theorem non_owner_sees_no_row (uid : option string) (id0 : string)
    (row : Extraction) (w : World)
    (updates : ExtractionInsert -> ExtractionInsert) :
  table w !! id0 = Some row ->
  uid <> Some (user_id (fields row)) ->
  (forall u, policy (Some u) (fields row) = true <-> u = user_id (fields row))
  /\ getExtraction uid id0 w
     = (inr None,
        record_event
          (ConsoleError "Error fetching extraction:" (Some PGRST116)) w)
  /\ updateExtraction host uid id0 updates w
     = (inl PGRST116,
        record_event
          (ConsoleError "Error updating extraction:" (Some PGRST116)) w)
  /\ deleteExtraction uid id0 w = (inr true, w).
Proof.
  intros Hrow Hne. split.
  - intros u. rewrite policy_owner. split; congruence.
  - by apply non_owner_answers with row.
Qed.

(** The same answers as for an [id] that is not in the table. *)
Lemma absent_row_same_answers (uid : option string) (id0 : string) (w : World)
    (updates : ExtractionInsert -> ExtractionInsert) :
  table w !! id0 = None ->
  getExtraction uid id0 w
  = (inr None,
     record_event (ConsoleError "Error fetching extraction:" (Some PGRST116)) w)
  /\ updateExtraction host uid id0 updates w
     = (inl PGRST116,
        record_event
          (ConsoleError "Error updating extraction:" (Some PGRST116)) w)
  /\ deleteExtraction uid id0 w = (inr true, w).
Proof.
  intros Hrow.
  assert (Hsel : select_eq_id uid id0 (table w) = []).
  { unfold select_eq_id. by rewrite Hrow. }
  split; [|split].
  - unfold getExtraction. by rewrite Hsel.
  - unfold updateExtraction, mbind, M_bind, db_update. by rewrite Hsel.
  - unfold deleteExtraction, mbind, M_bind, db_delete. by rewrite Hsel.
Qed.

(** The owner reads and deletes the row. *)
Lemma owner_reads_and_deletes (id0 : string) (row : Extraction) (w : World) :
  table w !! id0 = Some row ->
  let owner := Some (user_id (fields row)) in
  getExtraction owner id0 w = (inr (Some row), w)
  /\ deleteExtraction owner id0 w
     = (inr true, set_table (delete id0 (table w)) w).
Proof.
  intros Hrow owner. subst owner.
  assert (Hsel := select_eq_id_owner id0 (table w) row Hrow).
  split.
  - unfold getExtraction. by rewrite Hsel.
  - unfold deleteExtraction, mbind, M_bind, db_delete. by rewrite Hsel.
Qed.

(** Reading gives a row only to its owner. *)
Lemma getExtraction_only_owner (uid : option string) (id0 : string)
    (row : Extraction) (w w' : World) :
  getExtraction uid id0 w = (inr (Some row), w') ->
  uid = Some (user_id (fields row)) /\ table w !! id0 = Some row.
Proof.
  unfold getExtraction, select_eq_id.
  destruct (table w !! id0) as [r|] eqn:Hrow; [|done].
  destruct (policy uid (fields r)) eqn:Hp; [|done].
  simpl. intros [= -> _]. by apply policy_owner in Hp.
Qed.

(** Deleting and updating change a row only for its owner. *)
Lemma table_changes_only_for_owner (uid : option string) (id0 : string)
    (w : World) (updates : ExtractionInsert -> ExtractionInsert) :
  (table (deleteExtraction uid id0 w).2 <> table w
   \/ table (updateExtraction host uid id0 updates w).2 <> table w) ->
  exists row, table w !! id0 = Some row /\ uid = Some (user_id (fields row)).
Proof.
  intros Hchange.
  destruct (table w !! id0) as [row|] eqn:Hrow.
  - exists row. split; [done|].
    destruct (decide (uid = Some (user_id (fields row)))) as [|Hne]; [done|].
    destruct (non_owner_answers uid id0 row w updates Hrow Hne)
      as (_ & Hu & Hd).
    rewrite Hu, Hd in Hchange. simpl in Hchange. tauto.
  - destruct (absent_row_same_answers uid id0 w updates Hrow) as (_ & Hu & Hd).
    rewrite Hu, Hd in Hchange. simpl in Hchange. tauto.
Qed.

End PersistenceProperties.

(** ** Concrete runs *)

Lemma POST_rejects_incomplete_payload_witness :
  POST host_too_many_pages "sys" "prompt" upload_request empty_world
  = (inr (Some {| body := ErrorBody "Invalid extraction response from AI";
                  http_status := 500 |}),
     (extractFromPdf host_too_many_pages "sys" "prompt" "JVBERi0=" empty_world).2)
  /\ table (extractFromPdf host_too_many_pages "sys" "prompt" "JVBERi0="
                           empty_world).2
     = table empty_world
  /\ Forall (fun e => is_Insert e = false)
       (run_events empty_world
          (extractFromPdf host_too_many_pages "sys" "prompt" "JVBERi0="
                          empty_world).2).
Proof.
  apply (POST_rejects_incomplete_payload host_too_many_pages "sys" "prompt"
           upload_request empty_world _ "alice"
           {| storagePath := Some "alice/1700000000000-x7k2.pdf";
              originalFilename := Some "report.pdf" |}
           "alice/1700000000000-x7k2.pdf" "JVBERi0=" (VObj ∅) "metadata").
  - reflexivity.
  - reflexivity.
  - reflexivity.
  - discriminate.
  - reflexivity.
  - reflexivity.
  - reflexivity.
  - apply list_elem_of_here.
  - reflexivity.
Defined.

Lemma extractFromPdf_fallback_witness :
  native_attempt host_too_many_pages "sys" "prompt" "JVBERi0=" empty_world
  = (inl (Error "A maximum of 100 PDF pages may be provided."),
     record_event (MessagesCreate (native_request "sys" "prompt" "JVBERi0="))
                  empty_world)
  /\ (extractFromPdf host_too_many_pages "sys" "prompt" "JVBERi0=" empty_world).1
     = inr (VObj ∅)
  /\ text_path_invocations
       (run_events empty_world
          (extractFromPdf host_too_many_pages "sys" "prompt" "JVBERi0="
                          empty_world).2)
     = 1%nat.
Proof.
  split; [reflexivity|].
  destruct (extractFromPdf_fallback host_too_many_pages "sys" "prompt"
              "JVBERi0=" empty_world
              (record_event
                 (MessagesCreate (native_request "sys" "prompt" "JVBERi0="))
                 empty_world)
              (Error "A maximum of 100 PDF pages may be provided.")
              eq_refl) as [Hmatch _].
  destruct (Hmatch eq_refl) as [_ Honce].
  split; [reflexivity | exact Honce].
Defined.

(** Any other failure is passed on: a throttled API is a failure after
    one call, and the endpoint answers 429. *)
Example extractFromPdf_rate_limited :
  (extractFromPdf host_rate_limited "sys" "prompt" "JVBERi0=" empty_world).1
  = inl (Error "429 rate_limit_error")
  /\ run_events empty_world
       (extractFromPdf host_rate_limited "sys" "prompt" "JVBERi0=" empty_world).2
     = [MessagesCreate (native_request "sys" "prompt" "JVBERi0=");
        ConsoleError "Error extracting from PDF:"
                     (Some (Error "429 rate_limit_error"))]
  /\ (POST host_rate_limited "sys" "prompt" upload_request empty_world).1
     = inr (Some {| body := ErrorBody
                      "Claude API rate limit reached. Please try again in a few minutes.";
                    http_status := 429 |}).
Proof. by repeat split. Qed.

(** C6.  A reply that cannot be parsed ends the pipeline as a failure,
    without another attempt.  The code does otherwise when the parser's
    message contains [maximum]: the [catch] clause of [extractFromPdf]
    covers the parsing too and takes that message for the size limit.
    Here the reply to the document is the word [maximum]; the parser
    rejects it, the text path runs and its result is returned. *)
Theorem extractFromPdf_retries_unparseable_reply :
  (parseClaudeResponse host_unparseable_reply (text_reply "maximum")
                       empty_world).1
  = inl (Error v8_syntax_error_maximum)
  /\ (extractFromPdf host_unparseable_reply "sys" "prompt" "JVBERi0="
                     empty_world).1
     = inr (VObj ∅)
  /\ run_events empty_world
       (extractFromPdf host_unparseable_reply "sys" "prompt" "JVBERi0="
                       empty_world).2
     = [MessagesCreate (native_request "sys" "prompt" "JVBERi0=");
        ConsoleLog "PDF too large, falling back to text extraction...";
        ExtractText "JVBERi0=";
        MessagesCreate
          (text_request "sys" "prompt" "NI 43-101 Technical Report")].
Proof. by repeat split. Qed.

Lemma length_replicate_string (n : nat) (c : ascii) :
  String.length (replicate_string n c) = n.
Proof. induction n as [|n IH]; simpl; congruence. Qed.

Lemma take_replicate_string (n k : nat) (c : ascii) :
  Js.take n (replicate_string (n + k) c) = replicate_string n c.
Proof.
  induction n as [|n IH]; simpl.
  - by destruct (replicate_string k c).
  - by rewrite IH.
Qed.

(** The truncation counts pages: up to 150000 pages all of them are
    submitted, with commas between; beyond, the first 150000 pages and
    the marker.  The number of characters plays no part. *)
Lemma truncatedText_counts_pages (pdfText : list string) :
  ((Z.of_nat (length pdfText) <= 150000)%Z ->
   ToString (truncatedText pdfText) = join "," pdfText)
  /\ ((150000 < Z.of_nat (length pdfText))%Z ->
      ToString (truncatedText pdfText)
      = join "," (take (Z.to_nat 150000) pdfText) +:+ truncation_marker).
Proof.
  unfold truncatedText, maxChars.
  destruct (Z.ltb_spec 150000 (Z.of_nat (length pdfText))) as [Hlt|Hle].
  - split; [lia | done].
  - split; [done | lia].
Qed.

(** The prompt of the text path and the marker, letter by letter; two
    pages are printed with a comma between them. *)
Example text_prompt_of_two_pages :
  text_prompt "PROMPT" (truncatedText ["page one"; "page two"])
  = "PROMPT

---

DOCUMENT TEXT:

page one,page two"
  /\ truncation_marker = "

[Document truncated due to length...]".
Proof. by split. Qed.

(** The truncation of the specification on a text over the budget. *)
Lemma truncated_as_specified_long (text : string) :
  (150000 < Js.length text)%Z ->
  truncated_as_specified text
  = Js.slice_to 150000 text +:+ truncation_marker
  /\ Js.length (truncated_as_specified text) = 150039%Z.
Proof.
  intros Hlong. unfold truncated_as_specified, maxChars.
  destruct (Z.leb_spec (Js.length text) 150000) as [Hle|_]; [lia|].
  split; [done|].
  unfold Js.length, Js.slice_to in *.
  rewrite string_app_length, length_take_string by lia.
  change (String.length truncation_marker) with 39%nat. lia.
Qed.

(** C8.  The text path submits a text of at most 150000 characters
    unchanged and cuts a longer one to its first 150000 characters,
    followed by the marker.  The code does otherwise: [extractText] gives
    it the pages' texts as an array, so that [pdfText.length] is the number
    of pages and [slice] would drop pages.  The one page of [long_page]
    has 150001 characters; all of them are submitted and no marker, where
    the specification keeps 150000 and appends the marker. *)
Theorem extractFromPdfText_submits_long_text_uncut :
  extractText host_long_page [] "JVBERi0=" = inr [long_page]
  /\ Js.length long_page = 150001%Z
  /\ truncatedText [long_page] = inr [long_page]
  /\ run_events empty_world
       (extractFromPdfText host_long_page "sys" "prompt" "JVBERi0="
                           empty_world).2
     = [ExtractText "JVBERi0=";
        MessagesCreate (text_request "sys" "prompt" long_page)]
  /\ truncated_as_specified long_page
     = replicate_string (Z.to_nat 150000) "a" +:+ truncation_marker
  /\ truncated_as_specified long_page <> long_page.
Proof.
  assert (Hlen : Js.length long_page = 150001%Z).
  { unfold Js.length, long_page. rewrite length_replicate_string. lia. }
  destruct (truncated_as_specified_long long_page) as [Hcut Hcutlen]; [lia|].
  split; [done|]. split; [done|]. split; [done|].
  split.
  - by rewrite (extractFromPdfText_submits host_long_page "sys" "prompt"
                  "JVBERi0=" empty_world [long_page]).
  - split.
    + rewrite Hcut.
      assert (Hkept : Js.slice_to 150000 long_page
                      = replicate_string (Z.to_nat 150000) "a").
      { unfold Js.slice_to, long_page.
        replace (Z.to_nat 150001) with (Z.to_nat 150000 + 1)%nat by lia.
        apply take_replicate_string. }
      rewrite Hkept. exact eq_refl.
    + intros Heq. rewrite Heq in Hcutlen. lia.
Qed.

(** Bob asks for alice's row: reading it gives [null], deleting it reports
    success and leaves the row where it is.  Neither is a failure. *)
Lemma non_owner_is_not_refused :
  table alice_world !! "row-1" = Some alice_row
  /\ user_id (fields alice_row) = "alice"
  /\ (getExtraction (Some "bob") "row-1" alice_world).1 = inr None
  /\ deleteExtraction (Some "bob") "row-1" alice_world = (inr true, alice_world)
  /\ ~ non_owner_is_refused host_too_many_pages.
Proof.
  split; [reflexivity|]. split; [reflexivity|].
  split; [reflexivity|]. split; [reflexivity|].
  intros Hclaim.
  destruct (Hclaim (Some "bob") "row-1" alice_row alice_world (fun e => e))
    as (_ & _ & e & He); [reflexivity | discriminate |].
  discriminate He.
Qed.

Lemma non_owner_sees_no_row_witness :
  (forall u, policy (Some u) (fields alice_row) = true <-> u = "alice")
  /\ getExtraction (Some "bob") "row-1" alice_world
  = (inr None,
     record_event (ConsoleError "Error fetching extraction:" (Some PGRST116))
                  alice_world)
  /\ updateExtraction host_too_many_pages (Some "bob") "row-1"
                      (set_status (Some PASS)) alice_world
     = (inl PGRST116,
        record_event (ConsoleError "Error updating extraction:" (Some PGRST116))
                     alice_world)
  /\ deleteExtraction (Some "bob") "row-1" alice_world = (inr true, alice_world).
Proof.
  apply (non_owner_sees_no_row host_too_many_pages (Some "bob") "row-1"
           alice_row alice_world (set_status (Some PASS))).
  - reflexivity.
  - discriminate.
Defined.

(** Alice reads and updates her row. *)
Example owner_updates_row :
  (getExtraction (Some "alice") "row-1" alice_world).1 = inr (Some alice_row)
  /\ (updateExtraction host_too_many_pages (Some "alice") "row-1"
                       (set_status (Some PASS)) alice_world).1
     = inr {| id := "row-1"; created_at := "2025-01-01T00:00:00Z";
              fields := set_status (Some PASS) (fields alice_row) |}.
Proof. by repeat split. Qed.

(** * Further properties *)

(** ** Strings: reversal, prefixes and trimming *)

Lemma string_app_nil_r (s : string) : s +:+ "" = s.
Proof.
  induction s as [|c s IH]; [done|].
  change (String c (s +:+ "") = String c s). by rewrite IH.
Qed.

Lemma string_app_assoc (s1 s2 s3 : string) :
  (s1 +:+ s2) +:+ s3 = s1 +:+ (s2 +:+ s3).
Proof.
  induction s1 as [|c s1 IH]; [done|].
  change (String c ((s1 +:+ s2) +:+ s3) = String c (s1 +:+ (s2 +:+ s3))).
  by rewrite IH.
Qed.

Lemma rev_app_app (s1 s2 t : string) :
  String.rev_app s1 s2 +:+ t = String.rev_app s1 (s2 +:+ t).
Proof.
  revert s2. induction s1 as [|c s1 IH]; intros s2; simpl; [done|].
  by rewrite IH.
Qed.

Lemma rev_cons (c : ascii) (s : string) :
  String.rev (String c s) = String.rev s +:+ String c "".
Proof. unfold String.rev. simpl. by rewrite rev_app_app. Qed.

Lemma rev_app_distr (s1 s2 : string) :
  String.rev (s1 +:+ s2) = String.rev s2 +:+ String.rev s1.
Proof.
  induction s1 as [|c s1 IH].
  - change (String.rev s2 = String.rev s2 +:+ ""). by rewrite string_app_nil_r.
  - change (String.rev (String c (s1 +:+ s2))
            = String.rev s2 +:+ String.rev (String c s1)).
    by rewrite !rev_cons, IH, string_app_assoc.
Qed.

Lemma rev_involutive (s : string) : String.rev (String.rev s) = s.
Proof.
  induction s as [|c s IH]; [done|].
  rewrite rev_cons, rev_app_distr, IH. done.
Qed.

Lemma rev_length (s : string) : String.length (String.rev s) = String.length s.
Proof.
  induction s as [|c s IH]; [done|].
  rewrite rev_cons, string_app_length, IH. simpl. lia.
Qed.

Lemma all_white_space_app (s1 s2 : string) :
  all_white_space (s1 +:+ s2) = all_white_space s1 && all_white_space s2.
Proof.
  induction s1 as [|c s1 IH]; [done|].
  change (Js.is_white_space c && all_white_space (s1 +:+ s2)
          = Js.is_white_space c && all_white_space s1 && all_white_space s2).
  by rewrite IH, andb_assoc.
Qed.

Lemma all_white_space_rev (s : string) :
  all_white_space (String.rev s) = all_white_space s.
Proof.
  induction s as [|c s IH]; [done|].
  rewrite rev_cons, all_white_space_app, IH. simpl.
  by rewrite andb_true_r, andb_comm.
Qed.

Lemma prefix_app (p s : string) : String.prefix p (p +:+ s) = true.
Proof.
  induction p as [|c p IH]; [by destruct s|].
  change (String.prefix (String c p) (String c (p +:+ s)) = true).
  simpl. destruct (ascii_dec c c); [done | congruence].
Qed.

Lemma drop_app_string (p s : string) : Js.drop (String.length p) (p +:+ s) = s.
Proof. induction p as [|c p IH]; [by destruct s | done]. Qed.

Lemma take_app_string (s p : string) :
  Js.take (String.length s) (s +:+ p) = s.
Proof.
  induction s as [|c s IH]; [by destruct p|].
  change (String c (Js.take (String.length s) (s +:+ p)) = String c s).
  by rewrite IH.
Qed.

Lemma startsWith_app (p s : string) : Js.startsWith (p +:+ s) p = true.
Proof. apply prefix_app. Qed.

Lemma endsWith_app (s p : string) : Js.endsWith (s +:+ p) p = true.
Proof. unfold Js.endsWith. rewrite rev_app_distr. apply prefix_app. Qed.

Lemma trimStart_white_space (ws s : string) :
  all_white_space ws = true -> Js.trimStart (ws +:+ s) = Js.trimStart s.
Proof.
  induction ws as [|c ws IH]; [done|]. simpl. intros [Hc Hws]%andb_true_iff.
  change (Js.trimStart (String c (ws +:+ s)) = Js.trimStart s).
  simpl. rewrite Hc. by apply IH.
Qed.

Lemma trimEnd_white_space (s ws : string) :
  all_white_space ws = true -> Js.trimEnd (s +:+ ws) = Js.trimEnd s.
Proof.
  intros Hws. unfold Js.trimEnd.
  rewrite rev_app_distr, trimStart_white_space; [done|].
  by rewrite all_white_space_rev.
Qed.

(** A text between two runs of white space is what [trim] leaves, when it
    begins and ends with a character that is no white space. *)
Lemma trim_between (ws1 ws2 s : string) (c1 c2 : ascii) (mid : string) :
  all_white_space ws1 = true ->
  all_white_space ws2 = true ->
  Js.is_white_space c1 = false ->
  Js.is_white_space c2 = false ->
  s = String c1 mid +:+ String c2 "" ->
  Js.trim (ws1 +:+ s +:+ ws2) = s.
Proof.
  intros H1 H2 Hc1 Hc2 ->. unfold Js.trim.
  rewrite trimStart_white_space by done.
  change ((String c1 mid +:+ String c2 "") +:+ ws2)
    with (String c1 ((mid +:+ String c2 "") +:+ ws2)).
  simpl Js.trimStart. rewrite Hc1.
  change (String c1 ((mid +:+ String c2 "") +:+ ws2))
    with ((String c1 mid +:+ String c2 "") +:+ ws2).
  rewrite trimEnd_white_space by done.
  unfold Js.trimEnd. rewrite rev_app_distr.
  change (String.rev (String c2 "")) with (String c2 "").
  change (String c2 "" +:+ String.rev (String c1 mid))
    with (String c2 (String.rev (String c1 mid))).
  simpl Js.trimStart. rewrite Hc2.
  change (String c2 (String.rev (String c1 mid)))
    with (String.rev (String c2 "") +:+ String.rev (String c1 mid)).
  by rewrite <- rev_app_distr, rev_involutive.
Qed.

Lemma lift_result_run {A} (r : exn + A) (w : World) : lift_result r w = (r, w).
Proof. by destruct r. Qed.

Lemma slice_to_last_app (n : Z) (s p : string) :
  n = Z.of_nat (String.length p) ->
  Js.slice_to_last n (s +:+ p) = s.
Proof.
  intros ->. unfold Js.slice_to_last. rewrite Nat2Z.id, string_app_length.
  replace (String.length s + String.length p - String.length p)%nat
    with (String.length s) by lia.
  apply take_app_string.
Qed.

Lemma slice_from_app (n : Z) (p s : string) :
  n = Z.of_nat (String.length p) ->
  Js.slice_from n (p +:+ s) = s.
Proof. intros ->. unfold Js.slice_from. rewrite Nat2Z.id. apply drop_app_string. Qed.

Lemma prefix_cons (a b : ascii) (p s : string) :
  String.prefix (String a p) (String b s)
  = bool_decide (a = b) && String.prefix p s.
Proof.
  simpl. destruct (ascii_dec a b) as [->|Hne].
  - by rewrite bool_decide_eq_true_2.
  - by rewrite bool_decide_eq_false_2.
Qed.

Lemma string_app_cons (c : ascii) (s t : string) :
  String c s +:+ t = String c (s +:+ t).
Proof. done. Qed.

Lemma prefix_nil_l (s : string) : String.prefix "" s = true.
Proof. by destruct s. Qed.

Lemma prefix_app_l (p q s : string) :
  String.prefix (p +:+ q) s = true -> String.prefix p s = true.
Proof.
  revert s. induction p as [|a p IH]; intros s; [by rewrite prefix_nil_l|].
  rewrite string_app_cons. destruct s as [|b s]; [done|].
  rewrite !prefix_cons, !andb_true_iff. intros [? ?]. split; [done|]. by apply IH.
Qed.

Lemma prefix_nil_r (a : ascii) (p : string) : String.prefix (String a p) "" = false.
Proof. done. Qed.

Lemma startsWith_json_app (body : string) :
  Js.startsWith body "json" = false ->
  Js.startsWith ("```" +:+ body +:+ "```") "```json" = false.
Proof.
  unfold Js.startsWith. intros Hjson.
  change ("```" +:+ body +:+ "```")
    with (String "`" (String "`" (String "`" (body +:+ "```")))).
  rewrite !prefix_cons, !bool_decide_eq_true_2 by done. simpl andb.
  destruct body as [|c1 [|c2 [|c3 [|c4 body]]]].
  - done.
  - change (String c1 "" +:+ "```") with (String c1 "```").
    rewrite prefix_cons. change (String.prefix "son" "```") with false.
    apply andb_false_r.
  - change (String c1 (String c2 "") +:+ "```")
      with (String c1 (String c2 "```")).
    rewrite !prefix_cons. change (String.prefix "on" "```") with false.
    by rewrite !andb_false_r.
  - change (String c1 (String c2 (String c3 "")) +:+ "```")
      with (String c1 (String c2 (String c3 "```"))).
    rewrite !prefix_cons. change (String.prefix "n" "```") with false.
    by rewrite !andb_false_r.
  - change (String c1 (String c2 (String c3 (String c4 body))) +:+ "```")
      with (String c1 (String c2 (String c3 (String c4 (body +:+ "```"))))).
    rewrite !prefix_cons in *. by rewrite prefix_nil_l in *.
Qed.

Section ParseProperties.

Variable host : Host.

(** X6.  The parser reads the first text block of the reply, takes off
    the white space around it and one Markdown fence, and hands the rest,
    trimmed again, to [JSON.parse]: a [json] fence, a bare fence (whose
    body does not itself begin with [json]) and an unfenced text all come
    out as their body. *)
Theorem parseClaudeResponse_strips_fence (response : Message)
    (block : ContentBlock) (ws1 ws2 : string) (w : World) :
  List.find (fun b => bool_decide (type b = "text")) (content response)
  = Some block ->
  all_white_space ws1 = true ->
  all_white_space ws2 = true ->
  (forall body,
     text block = ws1 +:+ "```json" +:+ body +:+ "```" +:+ ws2 ->
     parseClaudeResponse host response w
     = (JSON_parse host (Js.trim body), w))
  /\ (forall body,
        text block = ws1 +:+ "```" +:+ body +:+ "```" +:+ ws2 ->
        Js.startsWith body "json" = false ->
        parseClaudeResponse host response w
        = (JSON_parse host (Js.trim body), w))
  /\ (forall c1 mid c2,
        text block = ws1 +:+ (String c1 mid +:+ String c2 "") +:+ ws2 ->
        Js.is_white_space c1 = false ->
        Js.is_white_space c2 = false ->
        Js.startsWith (String c1 mid +:+ String c2 "") "```" = false ->
        Js.endsWith (String c1 mid +:+ String c2 "") "```" = false ->
        parseClaudeResponse host response w
        = (JSON_parse host (String c1 mid +:+ String c2 ""), w)).
Proof.
  intros Hfind Hws1 Hws2. unfold parseClaudeResponse. rewrite Hfind.
  split; [|split].
  - intros body Htext. rewrite Htext.
    assert (Htrim : Js.trim (ws1 +:+ "```json" +:+ body +:+ "```" +:+ ws2)
                    = "```json" +:+ body +:+ "```").
    { replace (ws1 +:+ "```json" +:+ body +:+ "```" +:+ ws2)
        with (ws1 +:+ ("```json" +:+ body +:+ "```") +:+ ws2)
        by (by rewrite !string_app_assoc).
      apply (trim_between ws1 ws2 _ "`"%char "`"%char
               ("``json" +:+ body +:+ "``")); try done.
      by rewrite !string_app_cons, !string_app_assoc. }
    rewrite Htrim, (startsWith_app "```json").
    rewrite (slice_from_app 7 "```json") by done.
    rewrite (endsWith_app body "```").
    rewrite (slice_to_last_app 3 body "```") by done. apply lift_result_run.
  - intros body Htext Hjson. rewrite Htext.
    assert (Htrim : Js.trim (ws1 +:+ "```" +:+ body +:+ "```" +:+ ws2)
                    = "```" +:+ body +:+ "```").
    { replace (ws1 +:+ "```" +:+ body +:+ "```" +:+ ws2)
        with (ws1 +:+ ("```" +:+ body +:+ "```") +:+ ws2)
        by (by rewrite !string_app_assoc).
      apply (trim_between ws1 ws2 _ "`"%char "`"%char
               ("``" +:+ body +:+ "``")); try done.
      by rewrite !string_app_cons, !string_app_assoc. }
    rewrite Htrim, (startsWith_json_app body Hjson), (startsWith_app "```").
    rewrite (slice_from_app 3 "```") by done.
    rewrite (endsWith_app body "```").
    rewrite (slice_to_last_app 3 body "```") by done. apply lift_result_run.
  - intros c1 mid c2 Htext Hc1 Hc2 Hstart Hend. rewrite Htext.
    rewrite (trim_between ws1 ws2 _ c1 c2 mid) by done.
    assert (Hjson : Js.startsWith (String c1 mid +:+ String c2 "") "```json"
                    = false).
    { apply not_true_is_false. intros Hp.
      apply (prefix_app_l "```" "json") in Hp. unfold Js.startsWith in Hstart.
      congruence. }
    rewrite Hjson, Hstart, Hend.
    assert (Htrim := trim_between "" "" _ c1 c2 mid eq_refl eq_refl Hc1 Hc2
                       eq_refl).
    rewrite string_app_nil_r in Htrim. simpl in Htrim.
    change ("" +:+ String c1 mid +:+ String c2 "")
      with (String c1 mid +:+ String c2 "") in Htrim.
    rewrite Htrim. apply lift_result_run.
Qed.

End ParseProperties.

(** ** The pipeline, further *)

Section ClaudeFurther.

Variable host : Host.
Variables SYSTEM_PROMPT EXTRACTION_PROMPT : string.

Local Abbreviation parse := (parseClaudeResponse host).
Local Abbreviation textPath := (extractFromPdfText host SYSTEM_PROMPT EXTRACTION_PROMPT).
Local Abbreviation nativeTry := (native_attempt host SYSTEM_PROMPT EXTRACTION_PROMPT).
Local Abbreviation extract := (extractFromPdf host SYSTEM_PROMPT EXTRACTION_PROMPT).

(** X7.  When the API answers the document and the answer parses, the
    extraction returns the parsed payload after that one call: no text is
    extracted from the PDF and nothing is logged. *)
Theorem extractFromPdf_native_success (pdfBase64 : string) (w : World)
    (response : Message) (data : value) :
  messages_create host (trace w)
    (native_request SYSTEM_PROMPT EXTRACTION_PROMPT pdfBase64) = inr response ->
  (parse response w).1 = inr data ->
  extract pdfBase64 w
  = (inr data,
     record_event
       (MessagesCreate (native_request SYSTEM_PROMPT EXTRACTION_PROMPT pdfBase64))
       w).
Proof.
  intros Hreply Hparse.
  unfold extractFromPdf, try_catch, native_attempt, mbind, M_bind,
    anthropic_messages_create.
  unfold native_request in Hreply. rewrite Hreply.
  match goal with |- context [parse response ?w0] =>
    rewrite (parseClaudeResponse_pure host response w0 w), Hparse end.
  done.
Qed.

(** X8.  Whatever happens, the extraction starts with the request that
    carries the document, calls the API at most twice, extracts the text
    at most once and leaves the table alone. *)
Theorem extractFromPdf_bounded_effects (pdfBase64 : string) (w : World) :
  let evs := run_events w (extract pdfBase64 w).2 in
  head evs
  = Some (MessagesCreate
            (native_request SYSTEM_PROMPT EXTRACTION_PROMPT pdfBase64))
  /\ (api_calls evs <= 2)%nat
  /\ (text_path_invocations evs <= 1)%nat
  /\ (api_calls evs = 2%nat -> text_path_invocations evs = 1%nat)
  /\ table (extract pdfBase64 w).2 = table w.
Proof.
  intros evs. subst evs.
  unfold extractFromPdf, try_catch.
  assert (Hw := native_attempt_world host SYSTEM_PROMPT EXTRACTION_PROMPT
                  pdfBase64 w).
  destruct (nativeTry pdfBase64 w) as [[error|v] w1]; simpl in Hw; subst w1.
  - destruct (is_too_many_pages _).
    + rewrite bind_emit, extractFromPdfText_world.
      destruct (extractText host _ _) as [e|pdfText]; run_events_calc;
        unfold api_calls, text_path_invocations; simpl;
        repeat split; try done; lia.
    + rewrite bind_emit, throw_run. run_events_calc.
      unfold api_calls, text_path_invocations; simpl.
      repeat split; try done; lia.
  - simpl. run_events_calc. unfold api_calls, text_path_invocations; simpl.
    repeat split; try done; lia.
Qed.

(** X9.  In the fallback, a PDF whose text cannot be extracted ends the
    extraction with the extractor's error, not with the size error that
    led there; the API is not called a second time. *)
Theorem extractFromPdf_fallback_extract_failure (pdfBase64 : string)
    (w w1 : World) (error error' : exn) :
  nativeTry pdfBase64 w = (inl error, w1) ->
  is_too_many_pages (message_or_string error) = true ->
  extractText host
    (trace (record_event
              (ConsoleLog "PDF too large, falling back to text extraction...")
              w1))
    pdfBase64 = inl error' ->
  (extract pdfBase64 w).1 = inl error'
  /\ api_calls (run_events w (extract pdfBase64 w).2) = 1%nat
  /\ text_path_invocations (run_events w (extract pdfBase64 w).2) = 1%nat.
Proof.
  intros Hnative Hmatch Htext.
  rewrite (extractFromPdf_catch host SYSTEM_PROMPT EXTRACTION_PROMPT pdfBase64
             w w1 error Hnative), Hmatch.
  assert (Hw := native_attempt_world host SYSTEM_PROMPT EXTRACTION_PROMPT
                  pdfBase64 w).
  rewrite Hnative in Hw. simpl in Hw. subst w1.
  split.
  - unfold extractFromPdfText, mbind, M_bind, unpdf_extractText.
    by rewrite Htext.
  - rewrite extractFromPdfText_world, Htext. by run_events_calc.
Qed.

End ClaudeFurther.


(** ** Typed payloads and the happy path of the endpoint *)

Lemma as_section_Some (v s : value) :
  as_section v = Some s -> exists m, v = VObj m.
Proof. destruct v; try done. by eexists. Qed.

Lemma prop_is_object (data : value) (key : string) (m : gmap string value) :
  prop data key = VObj m ->
  exists m0, data = VObj m0 /\ m0 !! key = Some (VObj m).
Proof.
  destruct data as [| | | | | |m0]; try done. simpl.
  destruct (m0 !! key) as [v|] eqn:Hk; simpl; [|done].
  intros ->. by exists m0.
Qed.

(** A payload that reads as a [ClaudeExtractionResponse] has all seven
    sections, each an object. *)
Lemma typed_payload_sections (data : value) (response : ClaudeExtractionResponse) :
  asClaudeExtractionResponse data = Some response ->
  exists m, data = VObj m
            /\ forall key, key ∈ requiredKeys ->
                           exists s, m !! key = Some (VObj s).
Proof.
  unfold asClaudeExtractionResponse. intros H.
  destruct (as_section (prop data "metadata")) as [md|] eqn:H1; [|done].
  destruct (as_section (prop data "project_basics")) as [pb|] eqn:H2; [|done].
  destruct (as_section (prop data "resource_estimate")) as [re|] eqn:H3; [|done].
  destruct (as_section (prop data "economics")) as [ec|] eqn:H4; [|done].
  destruct (as_section (prop data "risk_assessment")) as [ra|] eqn:H5; [|done].
  destruct (as_section (prop data "investment_analysis")) as [ia|] eqn:H6;
    [|done].
  destruct (as_section (prop data "derived_metrics")) as [dm|] eqn:H7; [|done].
  clear H.
  apply as_section_Some in H1 as [m1 H1]. apply prop_is_object in H1 as (m & -> & H1).
  apply as_section_Some in H2 as [m2 H2]. apply prop_is_object in H2 as (? & [= <-] & H2).
  apply as_section_Some in H3 as [m3 H3]. apply prop_is_object in H3 as (? & [= <-] & H3).
  apply as_section_Some in H4 as [m4 H4]. apply prop_is_object in H4 as (? & [= <-] & H4).
  apply as_section_Some in H5 as [m5 H5]. apply prop_is_object in H5 as (? & [= <-] & H5).
  apply as_section_Some in H6 as [m6 H6]. apply prop_is_object in H6 as (? & [= <-] & H6).
  apply as_section_Some in H7 as [m7 H7]. apply prop_is_object in H7 as (? & [= <-] & H7).
  exists m. split; [done|]. intros key Hkey. unfold requiredKeys in Hkey.
  repeat (apply elem_of_cons in Hkey as [-> | Hkey]; [by eexists|]).
  by apply elem_of_nil in Hkey.
Qed.

Lemma typed_payload_validates (data : value) (response : ClaudeExtractionResponse) :
  asClaudeExtractionResponse data = Some response ->
  validateExtractionResponse data = true.
Proof.
  intros H. apply typed_payload_sections in H as (m & -> & Hall).
  change (all_keys_in requiredKeys (VObj m) = true).
  rewrite all_keys_in_Forall, Forall_forall. intros key Hkey. simpl.
  apply bool_decide_eq_true. destruct (Hall key Hkey) as [s ->]. by eexists.
Qed.

(** X25.  Every payload that reads as a [ClaudeExtractionResponse] passes
    the validation, with all seven sections objects; the validation asks
    for less, so passing it does not make a payload one. *)
Theorem typed_payload_is_valid (data : value)
    (response : ClaudeExtractionResponse) :
  asClaudeExtractionResponse data = Some response ->
  validateExtractionResponse data = true
  /\ (exists m, data = VObj m
                /\ forall key, key ∈ requiredKeys ->
                               exists s, m !! key = Some (VObj s))
  /\ validateExtractionResponse payload_of_nulls = true
  /\ asClaudeExtractionResponse payload_of_nulls = None.
Proof.
  intros H. split; [by eapply typed_payload_validates|].
  split; [by eapply typed_payload_sections|].
  split; by vm_compute.
Qed.

Section HappyPath.

Variable host : Host.
Variables SYSTEM_PROMPT EXTRACTION_PROMPT : string.

Local Abbreviation extract := (extractFromPdf host SYSTEM_PROMPT EXTRACTION_PROMPT).
Local Abbreviation handler := (POST host SYSTEM_PROMPT EXTRACTION_PROMPT).


End HappyPath.

(** ** The endpoint: rejections, failures and what gets stored *)

Section RouteFurther.

Variable host : Host.
Variables SYSTEM_PROMPT EXTRACTION_PROMPT : string.

Local Abbreviation extract := (extractFromPdf host SYSTEM_PROMPT EXTRACTION_PROMPT).
Local Abbreviation handler := (POST host SYSTEM_PROMPT EXTRACTION_PROMPT).

(** The [catch] clause answers with an error body and one of its seven
    statuses, and logs the error; it does nothing else. *)
Lemma POST_catch_answer (error : exn) (w : World) :
  answers_error (POST_catch error w).1 catch_statuses
  /\ (POST_catch error w).2
     = record_event (ConsoleError "Extraction error:" (Some error)) w.
Proof.
  unfold POST_catch. rewrite bind_emit.
  unfold answers_error, catch_statuses, NextResponse_json.
  repeat match goal with |- context [if ?b then _ else _] => destruct b end;
    (split; [eexists _, _; split; [reflexivity | set_solver] | reflexivity]).
Qed.


(** The handler up to the extraction, by cases: a rejection that leaves
    the world as it was, a failed download that only logs, or the rest of
    the handler for the caller's own file. *)
Lemma POST_prelude (request : NextRequest) (w : World) :
  (exists st, st ∈ [401; 400; 403]%Z
              /\ answers_error (handler request w).1 [st]
              /\ (handler request w).2 = w)
  \/ (exists error, json request = inl error
                    /\ handler request w = POST_catch error w)
  \/ (answers_error (handler request w).1 [500%Z]
      /\ (handler request w).2
         = record_event (ConsoleError "Download error:" None) w)
  \/ (exists user body0 path base64,
        auth_getUser host = Some user
        /\ json request = inr body0
        /\ storagePath body0 = Some path
        /\ Js.startsWith path (user +:+ "/") = true
        /\ storage_download host path = Some base64
        /\ handler request w
           = try_catch
               (POST_extract host SYSTEM_PROMPT EXTRACTION_PROMPT base64 user
                  (default "document.pdf"
                     (Js.or_else
                        (Js.or_else (originalFilename body0)
                                    (Some (Js.last_segment path)))
                        (Some "document.pdf")))
                  (storage_getPublicUrl host path))
               POST_catch w).
Proof.
  unfold POST, try_catch.
  destruct (auth_getUser host) as [user|] eqn:Hauth.
  2:{ left. exists 401%Z. split; [set_solver|]. split; [|done].
      eexists _, _. split; [reflexivity | set_solver]. }
  destruct (json request) as [error|body0] eqn:Hjson.
  { right; left. exists error. done. }
  unfold lift_result, mbind, M_bind, mret, M_ret.
  destruct (storagePath body0) as [[|c path]|] eqn:Hpath; simpl Js.or_else;
    cbv beta iota.
  1,3: left; exists 400%Z; (split; [set_solver|]); (split; [|done]);
       eexists _, _; (split; [reflexivity | set_solver]).
  change (Js.or_else (Some (String c path)) None) with (Some (String c path)).
  cbv beta iota.
  destruct (Js.startsWith (String c path) (user +:+ "/")) eqn:Hprefix; simpl negb;
    cbv iota.
  2:{ left. exists 403%Z. split; [set_solver|]. split; [|done].
      eexists _, _. split; [reflexivity | set_solver]. }
  destruct (storage_download host (String c path)) as [base64|] eqn:Hdl.
  2:{ right; right; left. split; [|done].
      eexists _, _. split; [reflexivity | set_solver]. }
  right; right; right. exists user, body0, (String c path), base64. done.
Qed.










(** X3.  A request without a valid session is answered 401, one without
    a storage path 400, one with a path outside the caller's folder 403;
    in all three the world is left as it was: no call of the API, no
    text extraction, nothing logged and nothing stored. *)
Theorem POST_rejects_without_effect (request : NextRequest) (w : World) :
  (auth_getUser host = None ->
   handler request w
   = (inr (Some {| body := ErrorBody "Unauthorized"; http_status := 401 |}), w))
  /\ (forall user body0,
        auth_getUser host = Some user ->
        json request = inr body0 ->
        storagePath body0 = None \/ storagePath body0 = Some "" ->
        handler request w
        = (inr (Some {| body := ErrorBody "No storage path provided";
                        http_status := 400 |}), w))
  /\ (forall user body0 path,
        auth_getUser host = Some user ->
        json request = inr body0 ->
        storagePath body0 = Some path ->
        path <> "" ->
        Js.startsWith path (user +:+ "/") = false ->
        handler request w
        = (inr (Some {| body := ErrorBody "Unauthorized access to file";
                        http_status := 403 |}), w)).
Proof.
  split; [|split].
  - intros Hauth. unfold POST, try_catch. by rewrite Hauth.
  - intros user body0 Hauth Hjson Hpath. unfold POST, try_catch.
    rewrite Hauth, Hjson. unfold lift_result, mbind, M_bind, mret, M_ret.
    by destruct Hpath as [-> | ->].
  - intros user body0 path Hauth Hjson Hpath Hne Hprefix.
    unfold POST, try_catch.
    rewrite Hauth, Hjson. unfold lift_result, mbind, M_bind, mret, M_ret.
    rewrite Hpath. destruct path as [|c path]; [done|].
    change (Js.or_else (Some (String c path)) None) with (Some (String c path)).
    cbv beta iota. by rewrite Hprefix.
Qed.

(** X4.  The API is called and the table changed only for an
    authenticated caller, on a path inside the caller's own folder, whose
    file could be downloaded. *)
Theorem POST_effects_need_own_file (request : NextRequest) (w : World) :
  (0 < api_calls (run_events w (handler request w).2))%nat
  \/ table (handler request w).2 <> table w ->
  exists user body0 path base64,
    auth_getUser host = Some user
    /\ json request = inr body0
    /\ storagePath body0 = Some path
    /\ Js.startsWith path (user +:+ "/") = true
    /\ storage_download host path = Some base64.
Proof.
  intros Heffect.
  destruct (POST_prelude request w)
    as [(st & _ & _ & Hw) | [(error & _ & Hw) | [[_ Hw] |
        (user & body0 & path & base64 & ? & ? & ? & ? & ? & _)]]].
  - rewrite Hw, run_events_refl in Heffect. unfold api_calls in Heffect.
    simpl in Heffect. destruct Heffect; [lia | done].
  - rewrite Hw in Heffect. destruct (POST_catch_answer error w) as [_ Hc].
    rewrite Hc in Heffect. revert Heffect. run_events_calc.
    unfold api_calls; simpl. intros [? | ?]; [lia | done].
  - rewrite Hw in Heffect. revert Heffect. run_events_calc.
    unfold api_calls; simpl. intros [? | ?]; [lia | done].
  - by exists user, body0, path, base64.
Qed.

(** The extraction only adds to the trace. *)
Lemma extractFromPdf_trace_extends (pdfBase64 : string) (w : World) :
  exists evs, trace (extract pdfBase64 w).2 = (trace w ++ evs)%list.
Proof.
  unfold extractFromPdf, try_catch.
  assert (Hw := native_attempt_world host SYSTEM_PROMPT EXTRACTION_PROMPT
                  pdfBase64 w).
  destruct (native_attempt host SYSTEM_PROMPT EXTRACTION_PROMPT pdfBase64 w)
    as [[error|v] w1]; simpl in Hw; subst w1.
  - destruct (is_too_many_pages _).
    + rewrite bind_emit, extractFromPdfText_world.
      destruct (extractText host _ _) as [e|pdfText]; simpl;
        rewrite <- ?app_assoc; by eexists.
    + rewrite bind_emit, throw_run. simpl. rewrite <- ?app_assoc. by eexists.
  - simpl. by eexists.
Qed.

(** X5.  When the extraction fails the answer is an error with one of the
    statuses 429, 401, 503, 413, 422, 504, 500; the table is as before and
    no row was offered to the database. *)
Theorem POST_extraction_failure (request : NextRequest) (w w1 : World)
    (user : string) (body0 : RequestBody) (path base64 : string)
    (error : exn) :
  auth_getUser host = Some user ->
  json request = inr body0 ->
  storagePath body0 = Some path ->
  path <> "" ->
  Js.startsWith path (user +:+ "/") = true ->
  storage_download host path = Some base64 ->
  extract base64 w = (inl error, w1) ->
  handler request w = POST_catch error w1
  /\ answers_error (handler request w).1 catch_statuses
  /\ table (handler request w).2 = table w
  /\ Forall (fun e => is_Insert e = false) (run_events w (handler request w).2).
Proof.
  intros Hauth Hjson Hpath Hne Hprefix Hdl Hext.
  assert (Hrun : handler request w = POST_catch error w1).
  { rewrite (POST_reaches_extraction host SYSTEM_PROMPT EXTRACTION_PROMPT
               request w user body0 path base64) by done.
    unfold try_catch, POST_extract, mbind, M_bind. by rewrite Hext. }
  rewrite Hrun. split; [done|].
  destruct (POST_catch_answer error w1) as [Hans Hw]. split; [done|].
  rewrite Hw.
  destruct (extractFromPdf_events host SYSTEM_PROMPT EXTRACTION_PROMPT base64 w)
    as (Htable & Hev & _).
  rewrite Hext in Htable, Hev. simpl in *. split; [done|].
  destruct (extractFromPdf_trace_extends base64 w) as [evs Htr].
  rewrite Hext in Htr. simpl in Htr.
  rewrite (run_events_app w w1 evs Htr) in Hev.
  rewrite (run_events_app w _
             (evs ++ [ConsoleError "Extraction error:" (Some error)])).
  - apply Forall_app. split; [done|]. each_event.
  - simpl. by rewrite Htr, <- app_assoc.
Qed.

End RouteFurther.

(** ** Persistence: round trips and ownership *)

Section PersistenceFurther.

Variable host : Host.

(** X11.  A row that [insertExtraction] returns is the caller's own, was
    stored under a fresh [id] with the fields given, and is what
    [getExtraction] then returns to the same caller. *)
Theorem insertExtraction_then_get (uid : option string)
    (extraction : ExtractionInsert) (w w' : World) (row : Extraction) :
  insertExtraction host uid extraction w = (inr row, w') ->
  fields row = extraction
  /\ uid = Some (user_id extraction)
  /\ table w !! id row = None
  /\ table w' = <[id row := row]> (table w)
  /\ getExtraction uid (id row) w' = (inr (Some row), w').
Proof.
  unfold insertExtraction, mbind, M_bind, db_insert.
  destruct (column_types_accept host extraction); simpl; [|done].
  destruct (policy uid extraction) eqn:Hpol; simpl; [|done].
  destruct (check_magellan_score extraction); simpl; [|done].
  destruct (table w !! gen_random_uuid host w) as [old|] eqn:Hfresh.
  { rewrite bool_decide_eq_true_2 by (by eexists). done. }
  rewrite bool_decide_eq_false_2 by (by apply is_Some_None). simpl.
  intros [= <- <-]. simpl.
  apply policy_owner in Hpol.
  split; [done|]. split; [done|]. split; [done|]. split; [done|].
  unfold getExtraction, select_eq_id. simpl.
  rewrite lookup_insert_eq. simpl.
  unfold policy. by rewrite bool_decide_eq_true_2.
Qed.

(** X12.  Nobody inserts a row for another user: when the [user_id] of
    the row is not the caller, [insertExtraction] throws and the table is
    as before; the error is the policy's (42501) whenever the values fit
    the columns. *)
Theorem insertExtraction_for_another_user (uid : option string)
    (extraction : ExtractionInsert) (w : World) :
  uid <> Some (user_id extraction) ->
  (exists error, (insertExtraction host uid extraction w).1 = inl error
                 /\ (column_types_accept host extraction = true ->
                     error = insufficient_privilege))
  /\ table (insertExtraction host uid extraction w).2 = table w.
Proof.
  intros Hne. unfold insertExtraction, mbind, M_bind, db_insert.
  destruct (column_types_accept host extraction); simpl.
  - unfold policy. rewrite bool_decide_eq_false_2 by done. simpl.
    split; [|done]. by eexists.
  - split; [|done]. by eexists.
Qed.

(** X13.  The owner cannot give a row away: an update that changes
    [user_id] throws and leaves the table as it was. *)
Theorem updateExtraction_cannot_transfer (id0 : string) (row : Extraction)
    (updates : ExtractionInsert -> ExtractionInsert) (w : World) :
  table w !! id0 = Some row ->
  user_id (updates (fields row)) <> user_id (fields row) ->
  let out := updateExtraction host (Some (user_id (fields row))) id0 updates w in
  (exists error, out.1 = inl error) /\ table out.2 = table w.
Proof.
  intros Hrow Hne out. subst out.
  unfold updateExtraction, mbind, M_bind, db_update.
  rewrite (select_eq_id_owner id0 (table w) row Hrow). simpl.
  destruct (column_types_accept host (updates (fields row))); simpl.
  - unfold policy. rewrite bool_decide_eq_false_2 by congruence. simpl.
    split; [by eexists | done].
  - split; [by eexists | done].
Qed.

(** X14.  An update that succeeds returns the row with the same [id] and
    [created_at] and the updated fields, replaces that row only, and is
    what [getExtraction] returns afterwards. *)
Theorem updateExtraction_then_get (uid : option string) (id0 : string)
    (updates : ExtractionInsert -> ExtractionInsert) (w w' : World)
    (row' : Extraction) :
  well_keyed (table w) ->
  updateExtraction host uid id0 updates w = (inr row', w') ->
  exists row,
    table w !! id0 = Some row
    /\ uid = Some (user_id (fields row))
    /\ user_id (fields row') = user_id (fields row)
    /\ id row' = id0
    /\ created_at row' = created_at row
    /\ fields row' = updates (fields row)
    /\ table w' = <[id0 := row']> (table w)
    /\ (forall k, k <> id0 -> table w' !! k = table w !! k)
    /\ getExtraction uid id0 w' = (inr (Some row'), w').
Proof.
  intros Hkeys.
  unfold updateExtraction, mbind, M_bind, db_update, select_eq_id.
  destruct (table w !! id0) as [row|] eqn:Hrow; [|by simpl].
  destruct (policy uid (fields row)) eqn:Hpol; [|by simpl]. simpl.
  destruct (column_types_accept host (updates (fields row))); simpl; [|done].
  destruct (policy uid (updates (fields row))) eqn:Hpol'; simpl; [|done].
  destruct (check_magellan_score (updates (fields row))); simpl; [|done].
  intros [= <- <-]. exists row. simpl.
  apply policy_owner in Hpol. apply policy_owner in Hpol'.
  rewrite (Hkeys id0 row Hrow).
  split; [done|]. split; [done|]. split; [congruence|].
  split; [done|]. split; [done|]. split; [done|]. split; [done|].
  split.
  - intros k Hk. by rewrite lookup_insert_ne.
  - unfold getExtraction, select_eq_id. simpl. rewrite lookup_insert_eq. simpl.
    unfold policy. by rewrite bool_decide_eq_true_2.
Qed.

(** X15.  After the owner deleted a row nobody gets it any more, every
    other row is where it was, and deleting it again changes nothing. *)
Theorem deleteExtraction_then_get (id0 : string) (row : Extraction) (w : World) :
  table w !! id0 = Some row ->
  let w' := (deleteExtraction (Some (user_id (fields row))) id0 w).2 in
  (forall uid, (getExtraction uid id0 w').1 = inr None)
  /\ (forall k, k <> id0 -> table w' !! k = table w !! k)
  /\ (forall uid, deleteExtraction uid id0 w' = (inr true, w')).
Proof.
  intros Hrow w'. subst w'.
  unfold deleteExtraction, mbind, M_bind, db_delete.
  rewrite (select_eq_id_owner id0 (table w) row Hrow). simpl.
  split; [|split].
  - intros uid. unfold getExtraction, select_eq_id. simpl.
    by rewrite lookup_delete_eq.
  - intros k Hk. by rewrite lookup_delete_ne.
  - intros uid. unfold select_eq_id. simpl. by rewrite lookup_delete_eq.
Qed.


End PersistenceFurther.

Section ListingProperties.

Variable timestamptz : string -> Z.
Variable select_error : list event -> option exn.

#[local] Instance created_at_desc_total : Total (created_at_desc timestamptz).
Proof. intros a b. unfold created_at_desc. lia. Qed.

#[local] Instance created_at_desc_trans : Transitive (created_at_desc timestamptz).
Proof. intros a b c. unfold created_at_desc. lia. Qed.

(** X16.  [getExtractions] never throws.  When the query goes through it
    returns the rows of the table that belong to the caller, all of them
    and no other, the newest first, and does not change the world; when
    the query fails it logs the error and returns the empty list, as for
    a caller without rows. *)
Theorem getExtractions_own_rows_newest_first (uid : option string) (w : World) :
  let out := getExtractions timestamptz select_error uid w in
  exists rows,
    out.1 = inr rows
    /\ table out.2 = table w
    /\ (select_error (trace w) = None ->
        out.2 = w
        /\ (forall row,
              row ∈ rows
              <-> (exists k, table w !! k = Some row)
                  /\ uid = Some (user_id (fields row)))
        /\ StronglySorted (created_at_desc timestamptz) rows)
    /\ (forall error,
          select_error (trace w) = Some error ->
          rows = []
          /\ out.2
             = record_event
                 (ConsoleError "Error fetching extractions:" (Some error)) w).
Proof.
  unfold getExtractions, db_select_all, mbind, M_bind.
  destruct (select_error (trace w)) as [error|]; simpl.
  - exists []. split; [reflexivity|]. split; [reflexivity|].
    split; [done|]. intros error' [= <-]. by split.
  - eexists. split; [reflexivity|]. split; [reflexivity|].
    split; [|done]. intros _. split; [reflexivity|]. split.
    + intros row. rewrite merge_sort_Permutation. unfold select_all.
      rewrite list_elem_of_filter, policy_owner, list_elem_of_fmap.
      split.
      * intros [Hu ([k r] & -> & Hin)]. apply elem_of_map_to_list in Hin.
        split; [by exists k | done].
      * intros [[k Hk] Hu]. split; [done|]. exists (k, row).
        split; [done|]. by apply elem_of_map_to_list.
    + apply (StronglySorted_merge_sort _).
Qed.

End ListingProperties.

(** ** Uploads and the endpoint's check of the path *)

Lemma prefix_folder (caller owner rest : string) :
  no_slash caller = true ->
  no_slash owner = true ->
  String.prefix (caller +:+ "/") (owner +:+ "/" +:+ rest) = true
  <-> caller = owner.
Proof.
  intros Hc Ho. split.
  - revert owner Ho Hc. induction caller as [|a caller IH]; intros owner Ho Hc.
    + destruct owner as [|c owner]; [done|].
      simpl in Ho. apply andb_true_iff in Ho as [Hslash _].
      apply negb_true_iff, bool_decide_eq_false in Hslash.
      change ("" +:+ "/") with (String "/" "").
      rewrite string_app_cons, prefix_cons, andb_true_iff, bool_decide_eq_true.
      intros [Heq _]. congruence.
    + simpl in Hc. apply andb_true_iff in Hc as [Hslash Hc].
      apply negb_true_iff, bool_decide_eq_false in Hslash.
      rewrite string_app_cons.
      destruct owner as [|c owner].
      * change ("" +:+ "/" +:+ rest) with (String "/" rest).
        rewrite prefix_cons, andb_true_iff, bool_decide_eq_true.
        intros [Heq _]. congruence.
      * simpl in Ho. apply andb_true_iff in Ho as [_ Ho].
        rewrite string_app_cons, prefix_cons, andb_true_iff, bool_decide_eq_true.
        intros [-> Hp]. f_equal. by apply IH.
  - intros ->. rewrite <- string_app_assoc. apply prefix_app.
Qed.

Section UploadProperties.

Variable host : Host.
Variables SYSTEM_PROMPT EXTRACTION_PROMPT : string.
Variables Date_now Math_random_36 : string.
Variable storage_upload : string -> exn + string.

Local Abbreviation handler := (POST host SYSTEM_PROMPT EXTRACTION_PROMPT).
Local Abbreviation upload := (uploadPdf host Date_now Math_random_36 storage_upload).

(** X18.  A file that [uploadPdf] stored for a user, under the name it
    asked for, passes the endpoint's check of the path for that user and
    for nobody else: another caller is answered 403 and nothing happens;
    the owner's request goes on to the download. *)
Theorem POST_accepts_only_the_uploader (file_name owner caller url path : string)
    (request : NextRequest) (body0 : RequestBody) (w0 w0' w : World) :
  upload file_name owner w0 = (inr (url, path), w0') ->
  storage_upload
    (storage_file_name owner Date_now Math_random_36
                       (split_pop "."%char file_name))
  = inr (storage_file_name owner Date_now Math_random_36
                           (split_pop "."%char file_name)) ->
  no_slash owner = true ->
  no_slash caller = true ->
  auth_getUser host = Some caller ->
  json request = inr body0 ->
  storagePath body0 = Some path ->
  (caller <> owner ->
   handler request w
   = (inr (Some {| body := ErrorBody "Unauthorized access to file";
                   http_status := 403 |}), w))
  /\ (caller = owner ->
     Js.startsWith path (caller +:+ "/") = true
     /\ (storage_download host path = None ->
         (handler request w).1
         = inr (Some {| body := ErrorBody "Failed to download file from storage";
                        http_status := 500 |}))).
Proof.
  intros Hup Hstored Howner Hcaller Hauth Hjson Hpath.
  assert (Hp : path = storage_file_name owner Date_now Math_random_36
                        (split_pop "."%char file_name)).
  { revert Hup. unfold uploadPdf. rewrite Hstored.
    unfold mret, M_ret. by intros [= _ <- _]. }
  assert (Hne : path <> "").
  { rewrite Hp. unfold storage_file_name. by destruct owner. }
  assert (Hcheck : Js.startsWith path (caller +:+ "/") = true <-> caller = owner).
  { rewrite Hp. unfold Js.startsWith, storage_file_name.
    by apply prefix_folder. }
  split.
  - intros Hother.
    assert (Hfalse : Js.startsWith path (caller +:+ "/") = false).
    { apply not_true_is_false. by rewrite Hcheck. }
    unfold POST, try_catch.
    rewrite Hauth, Hjson. unfold lift_result, mbind, M_bind, mret, M_ret.
    rewrite Hpath. destruct path as [|c path]; [done|].
    change (Js.or_else (Some (String c path)) None) with (Some (String c path)).
    cbv beta iota. by rewrite Hfalse.
  - intros Hsame. apply Hcheck in Hsame as Htrue. split; [done|].
    intros Hdl. unfold POST, try_catch.
    rewrite Hauth, Hjson. unfold lift_result, mbind, M_bind, mret, M_ret.
    rewrite Hpath. destruct path as [|c path]; [done|].
    change (Js.or_else (Some (String c path)) None) with (Some (String c path)).
    cbv beta iota. by rewrite Htrue, Hdl.
Qed.

End UploadProperties.

(** ** The table's filters and the ratio's label *)

(** X19.  The label and the colour shown beside a ratio name the bucket
    that [computeResourceConfidence] gives that ratio. *)
Theorem RatioDisplay_agrees_with_confidence (r : number) :
  match computeResourceConfidence (Some r) with
  | Some RC_high =>
      RatioDisplay.getLabel r = "High confidence"
      /\ RatioDisplay.getColor r = "text-green-400"
  | Some RC_moderate =>
      RatioDisplay.getLabel r = "Moderate"
      /\ RatioDisplay.getColor r = "text-yellow-400"
  | Some RC_low =>
      RatioDisplay.getLabel r = "Low confidence"
      /\ RatioDisplay.getColor r = "text-red-400"
  | None => False
  end.
Proof.
  unfold computeResourceConfidence, RatioDisplay.getLabel, RatioDisplay.getColor.
  destruct (gt r 2); [done|]. by destruct (ge r (Q2Qc (1 # 2))).
Qed.

Lemma filter_by_spec {A} `{EqDecision A} (field : Extraction -> option A)
    (value : option A) (result : list Extraction) (e : Extraction) :
  e ∈ filter_by field value result
  <-> e ∈ result /\ (forall v, value = Some v -> field e = Some v).
Proof.
  unfold filter_by. destruct value as [v|].
  - rewrite list_elem_of_In, filter_In, <- list_elem_of_In, bool_decide_eq_true.
    split.
    + intros [? ?]. split; [done|]. by intros ? [= <-].
    + intros [? Hv]. split; [done|]. by apply Hv.
  - split; [intros ?; split; [done|]; by intros ? [=] | by intros [? _]].
Qed.

Lemma filter_by_sublist {A} `{EqDecision A} (field : Extraction -> option A)
    (value : option A) (result : list Extraction) :
  filter_by field value result `sublist_of` result.
Proof.
  unfold filter_by. destruct value as [v|]; [|done].
  induction result as [|e result IH]; simpl; [done|].
  destruct (bool_decide _); by constructor.
Qed.

(** X20.  What the search and the filters keep: a row is shown exactly
    when it is in the list, one of its four searched fields contains the
    search text without regard to case (if there is one), and it has the
    value of every active filter; the rows shown keep the order they had. *)
Theorem filteredExtractions_keeps (search : string)
    (filters : ExtractionFilters) (extractions : list Extraction) :
  filteredExtractions_unsorted search filters extractions
    `sublist_of` extractions
  /\ forall e,
       e ∈ filteredExtractions_unsorted search filters extractions
       <-> e ∈ extractions
           /\ (search <> "" -> matches_search (toLowerCase search) e = true)
           /\ (forall v, active (Filters.status filters) = Some v ->
                         status (fields e) = Some v)
           /\ (forall v, active (Filters.priority filters) = Some v ->
                         investigation_priority (fields e) = Some v)
           /\ (forall v, active_text (Filters.commodity filters) = Some v ->
                         primary_commodity (fields e) = Some v)
           /\ (forall v, active_text (Filters.country filters) = Some v ->
                         country (fields e) = Some v)
           /\ (forall v, active_text (Filters.stage filters) = Some v ->
                         report_stage (fields e) = Some v).
Proof.
  unfold filteredExtractions_unsorted. split.
  - repeat (etrans; [apply filter_by_sublist|]).
    destruct (negb _); [|done].
    induction extractions as [|e l IH]; simpl; [done|].
    destruct (matches_search _ e); by constructor.
  - intros e. rewrite !filter_by_spec.
    assert (Hsearch :
      e ∈ (if negb (bool_decide (search = ""))
           then List.filter (matches_search (toLowerCase search)) extractions
           else extractions)
      <-> e ∈ extractions
          /\ (search <> "" -> matches_search (toLowerCase search) e = true)).
    { case_bool_decide as Hs; simpl.
      - split; [intros ?; split; [done|]; by intros ? | by intros [? _]].
      - rewrite list_elem_of_In, filter_In, <- list_elem_of_In.
        split; [intros [? ?]; split; [done|]; by intros _ |].
        intros [? Hm]. split; [done|]. by apply Hm. }
    rewrite Hsearch. tauto.
Qed.

(** X21.  With no active filter and an empty search box every row is
    shown, in the order given. *)
Theorem filteredExtractions_nothing_active (filters : ExtractionFilters)
    (extractions : list Extraction) :
  activeFilterCount filters = 0%nat ->
  filteredExtractions_unsorted "" filters extractions = extractions.
Proof.
  unfold activeFilterCount, filteredExtractions_unsorted.
  intros Hcount.
  assert (Hsome : forall A (x : A), bool_decide (is_Some (Some x)) = true)
    by (intros A x; apply bool_decide_eq_true; by eexists).
  destruct (active (Filters.status filters)) as [?|];
    [by rewrite Hsome in Hcount|].
  destruct (active (Filters.priority filters)) as [?|];
    [rewrite Hsome in Hcount; simpl in Hcount;
     by repeat case_match|].
  destruct (active_text (Filters.commodity filters)) as [?|];
    [rewrite Hsome in Hcount; simpl in Hcount; by repeat case_match|].
  destruct (active_text (Filters.country filters)) as [?|];
    [rewrite Hsome in Hcount; simpl in Hcount; by repeat case_match|].
  destruct (active_text (Filters.stage filters)) as [?|];
    [rewrite Hsome in Hcount; simpl in Hcount; by repeat case_match|].
  done.
Qed.

(** ** The CSV export *)

Lemma count_char_app (c : ascii) (s t : string) :
  count_char c (s +:+ t) = (count_char c s + count_char c t)%nat.
Proof.
  induction s as [|c' s IH]; [done|].
  rewrite string_app_cons. simpl. rewrite IH. lia.
Qed.

Lemma count_char_join (c sep : ascii) (l : list string) :
  count_char c (join (String sep "") l)
  = ((if bool_decide (sep = c) then length l - 1 else 0)
     + sum_list (count_char c <$> l))%nat.
Proof.
  induction l as [|x l IH]; [by case_bool_decide|].
  destruct l as [|y l].
  - simpl. case_bool_decide; lia.
  - change (join (String sep "") (x :: y :: l))
      with (x +:+ String sep "" +:+ join (String sep "") (y :: l)).
    rewrite !count_char_app, IH. simpl. case_bool_decide; simpl; lia.
Qed.

Section CsvProperties.

Variable format_date : string -> string.
Variable number_toString : number -> string.
Variable Status_text : Status -> string.
Variable Priority_text : Priority -> string.

Local Abbreviation row :=
  (csv_row format_date number_toString Status_text Priority_text).
Local Abbreviation export :=
  (exportToCsv format_date number_toString Status_text Priority_text).

(** X22.  The export writes the fields as they are, with nothing quoted:
    the line of a record has nine commas and one more for every comma in
    its ten fields, and the file has one line break per record and one
    more for every line break in a field.  So a record comes out as one
    line of ten columns exactly when none of its fields holds a comma or
    a line break. *)
Theorem exportToCsv_separators (filteredExtractions : list Extraction) :
  (forall e,
     length (row e) = 10%nat
     /\ count_char "," (join "," (row e))
        = (9 + sum_list (count_char "," <$> row e))%nat)
  /\ count_char "010" (export filteredExtractions)
     = (length filteredExtractions
        + sum_list ((fun e => sum_list (count_char "010" <$> row e))
                      <$> filteredExtractions))%nat.
Proof.
  split.
  - intros e. split; [done|].
    rewrite (count_char_join "," ","). by rewrite bool_decide_eq_true_2.
  - set (f := fun e => sum_list (count_char "010" <$> row e)).
    assert (Hlines : forall l : list Extraction,
               sum_list (count_char "010" <$> (join "," <$> (row <$> l)))
               = sum_list (f <$> l)).
    { induction l as [|e l IH]; [done|].
      rewrite !fmap_cons.
      change (sum_list (?x :: ?l)) with (x + sum_list l)%nat.
      rewrite IH. f_equal. unfold f.
      rewrite (count_char_join "010" ",").
      by rewrite bool_decide_eq_false_2. }
    unfold exportToCsv.
    rewrite (count_char_join "010" "010"), bool_decide_eq_true_2 by done.
    rewrite !fmap_cons.
    change (sum_list (?x :: ?l)) with (x + sum_list l)%nat.
    rewrite Hlines. cbn [length]. rewrite !length_fmap.
    change (count_char "010" (join "," csv_headers)) with 0%nat. lia.
Qed.

End CsvProperties.

(** ** The score and the table's check *)


Section StoreRefused.

Variable host : Host.
Variables SYSTEM_PROMPT EXTRACTION_PROMPT : string.

Local Abbreviation extract := (extractFromPdf host SYSTEM_PROMPT EXTRACTION_PROMPT).
Local Abbreviation handler := (POST host SYSTEM_PROMPT EXTRACTION_PROMPT).


End StoreRefused.

(** ** Further concrete runs *)




Lemma POST_effects_need_own_file_witness :
  exists user body0 path base64,
    auth_getUser host_too_many_pages = Some user
    /\ json upload_request = inr body0
    /\ storagePath body0 = Some path
    /\ Js.startsWith path (user +:+ "/") = true
    /\ storage_download host_too_many_pages path = Some base64.
Proof.
  apply (POST_effects_need_own_file host_too_many_pages "sys" "prompt"
           upload_request empty_world).
  left. vm_compute. lia.
Defined.

Lemma POST_extraction_failure_witness :
  answers_error
    (POST host_rate_limited "sys" "prompt" upload_request empty_world).1
    catch_statuses
  /\ table (POST host_rate_limited "sys" "prompt" upload_request empty_world).2
     = table empty_world.
Proof.
  destruct (POST_extraction_failure host_rate_limited "sys" "prompt"
              upload_request empty_world
              (extractFromPdf host_rate_limited "sys" "prompt" "JVBERi0="
                              empty_world).2
              "alice"
              {| storagePath := Some "alice/1700000000000-x7k2.pdf";
                 originalFilename := Some "report.pdf" |}
              "alice/1700000000000-x7k2.pdf" "JVBERi0="
              (Error "429 rate_limit_error"))
    as (_ & Hanswer & Htable & _); try reflexivity; [discriminate|].
  split; [exact Hanswer | exact Htable].
Defined.

Lemma parseClaudeResponse_strips_fence_witness :
  parseClaudeResponse host_too_many_pages
    (text_reply (" " +:+ Js.nl +:+ "```json" +:+ (Js.nl +:+ "{}" +:+ Js.nl)
                 +:+ "```" +:+ Js.nl))
    empty_world
  = (inr (VObj ∅), empty_world).
Proof.
  destruct (parseClaudeResponse_strips_fence host_too_many_pages
              (text_reply (" " +:+ Js.nl +:+ "```json"
                           +:+ (Js.nl +:+ "{}" +:+ Js.nl) +:+ "```" +:+ Js.nl))
              {| type := "text";
                 text := " " +:+ Js.nl +:+ "```json"
                         +:+ (Js.nl +:+ "{}" +:+ Js.nl) +:+ "```" +:+ Js.nl |}
              (" " +:+ Js.nl) Js.nl empty_world eq_refl eq_refl eq_refl)
    as [Hjson _].
  rewrite (Hjson (Js.nl +:+ "{}" +:+ Js.nl) eq_refl). reflexivity.
Defined.

Lemma extractFromPdf_native_success_witness :
  extractFromPdf host_typed_payload "sys" "prompt" "JVBERi0=" empty_world
  = (inr typed_payload,
     record_event (MessagesCreate (native_request "sys" "prompt" "JVBERi0="))
                  empty_world).
Proof.
  apply (extractFromPdf_native_success host_typed_payload "sys" "prompt"
           "JVBERi0=" empty_world (text_reply "{}") typed_payload);
    reflexivity.
Defined.

Lemma extractFromPdf_fallback_extract_failure_witness :
  (extractFromPdf host_unextractable "sys" "prompt" "JVBERi0=" empty_world).1
  = inl (Error "could not extract text")
  /\ api_calls
       (run_events empty_world
          (extractFromPdf host_unextractable "sys" "prompt" "JVBERi0="
                          empty_world).2)
     = 1%nat
  /\ text_path_invocations
       (run_events empty_world
          (extractFromPdf host_unextractable "sys" "prompt" "JVBERi0="
                          empty_world).2)
     = 1%nat.
Proof.
  apply (extractFromPdf_fallback_extract_failure host_unextractable "sys"
           "prompt" "JVBERi0=" empty_world
           (record_event
              (MessagesCreate (native_request "sys" "prompt" "JVBERi0="))
              empty_world)
           (Error "A maximum of 100 PDF pages may be provided.")
           (Error "could not extract text"));
    reflexivity.
Defined.

Lemma insertExtraction_then_get_witness :
  getExtraction (Some "alice") "row-1"
    (insertExtraction host_too_many_pages (Some "alice") (fields alice_row)
                      empty_world).2
  = (inr (Some alice_row),
     (insertExtraction host_too_many_pages (Some "alice") (fields alice_row)
                       empty_world).2).
Proof.
  apply (insertExtraction_then_get host_too_many_pages (Some "alice")
           (fields alice_row) empty_world _ alice_row).
  reflexivity.
Defined.

Lemma insertExtraction_for_another_user_witness :
  (exists error,
     (insertExtraction host_too_many_pages (Some "bob") (fields alice_row)
                       empty_world).1 = inl error
     /\ (column_types_accept host_too_many_pages (fields alice_row) = true ->
         error = insufficient_privilege))
  /\ table (insertExtraction host_too_many_pages (Some "bob") (fields alice_row)
                             empty_world).2
     = table empty_world.
Proof.
  apply (insertExtraction_for_another_user host_too_many_pages (Some "bob")
           (fields alice_row) empty_world).
  discriminate.
Defined.

Lemma updateExtraction_cannot_transfer_witness :
  (exists error,
     (updateExtraction host_too_many_pages (Some "alice") "row-1"
                       (fun _ => bob_fields) alice_world).1 = inl error)
  /\ table (updateExtraction host_too_many_pages (Some "alice") "row-1"
                             (fun _ => bob_fields) alice_world).2
     = table alice_world.
Proof.
  apply (updateExtraction_cannot_transfer host_too_many_pages "row-1" alice_row
           (fun _ => bob_fields) alice_world).
  - reflexivity.
  - discriminate.
Defined.

Lemma alice_world_well_keyed : well_keyed (table alice_world).
Proof.
  intros k row Hrow. unfold alice_world in Hrow. cbn [table] in Hrow.
  apply lookup_singleton_Some in Hrow as [<- <-]. reflexivity.
Defined.

Lemma updateExtraction_then_get_witness :
  exists row,
    table alice_world !! "row-1" = Some row
    /\ getExtraction (Some "alice") "row-1"
         (updateExtraction host_too_many_pages (Some "alice") "row-1"
                           (set_status (Some PASS)) alice_world).2
       = (inr (Some {| id := "row-1"; created_at := "2025-01-01T00:00:00Z";
                       fields := set_status (Some PASS) (fields alice_row) |}),
          (updateExtraction host_too_many_pages (Some "alice") "row-1"
                            (set_status (Some PASS)) alice_world).2).
Proof.
  destruct (updateExtraction_then_get host_too_many_pages (Some "alice") "row-1"
              (set_status (Some PASS)) alice_world
              (updateExtraction host_too_many_pages (Some "alice") "row-1"
                                (set_status (Some PASS)) alice_world).2
              {| id := "row-1"; created_at := "2025-01-01T00:00:00Z";
                 fields := set_status (Some PASS) (fields alice_row) |}
              alice_world_well_keyed eq_refl)
    as (row & Hrow & _ & _ & _ & _ & _ & _ & _ & Hget).
  exists row. split; [exact Hrow | exact Hget].
Defined.

Lemma deleteExtraction_then_get_witness :
  (forall uid,
     (getExtraction uid "row-1"
        (deleteExtraction (Some "alice") "row-1" alice_world).2).1
     = inr None)
  /\ (forall k, k <> "row-1" ->
        table (deleteExtraction (Some "alice") "row-1" alice_world).2 !! k
        = table alice_world !! k)
  /\ (forall uid,
        deleteExtraction uid "row-1"
          (deleteExtraction (Some "alice") "row-1" alice_world).2
        = (inr true, (deleteExtraction (Some "alice") "row-1" alice_world).2)).
Proof.
  apply (deleteExtraction_then_get "row-1" alice_row alice_world).
  reflexivity.
Defined.


Lemma POST_accepts_only_the_uploader_witness :
  (POST host_typed_payload "sys" "prompt" upload_request empty_world
   = (inr (Some {| body := ErrorBody "Unauthorized access to file";
                   http_status := 403 |}), empty_world) -> False)
  /\ Js.startsWith "alice/1700000000000-x7k2.pdf" ("alice" +:+ "/") = true.
Proof.
  destruct (POST_accepts_only_the_uploader host_typed_payload "sys" "prompt"
              "1700000000000" "x7k2" (fun path => inr path)
              "report.pdf" "alice" "alice"
              "https://storage.example/alice/1700000000000-x7k2.pdf"
              "alice/1700000000000-x7k2.pdf" upload_request
              {| storagePath := Some "alice/1700000000000-x7k2.pdf";
                 originalFilename := Some "report.pdf" |}
              empty_world empty_world empty_world
              eq_refl eq_refl eq_refl eq_refl eq_refl eq_refl eq_refl)
    as [_ Howner].
  split; [discriminate | exact (proj1 (Howner eq_refl))].
Defined.

Lemma filteredExtractions_nothing_active_witness :
  filteredExtractions_unsorted "" no_filters [alice_row] = [alice_row].
Proof.
  apply (filteredExtractions_nothing_active no_filters [alice_row]).
  reflexivity.
Defined.



Lemma typed_payload_is_valid_witness :
  validateExtractionResponse typed_payload = true.
Proof.
  apply (typed_payload_is_valid typed_payload empty_response). reflexivity.
Defined.

